(** * image-analyze-front: the App component of src/App.tsx

    A shallow embedding of the model lifecycle controller ([loadModel],
    [handleRetry]) and of the image pipeline ([handleImageUpload],
    [handleDrop], [analyzeImage]) of the React component [App].

    The component's hooks ([useState] values and [useRef] cells) are the
    fields of one record.  Every [await], [setTimeout], [FileReader] and
    [Image] callback of the source is a suspension point: the suspended
    continuation is stored in a slot of the task table, and the
    environment (browser, TensorFlow.js, MobileNet) resumes it later with
    a settlement.  The event loop is single-threaded, so a handler runs
    from one suspension point to the next without interleaving. *)

From Stdlib Require Import QArith.
From stdpp Require Import base list strings pretty.

Open Scope string_scope.
Open Scope list_scope.
Open Scope nat_scope.

(** ** Data model *)

(** [interface Prediction { className: string; probability: number }].
    A probability is a finite JS number; it is only stored and compared,
    never computed with, so it is kept as a rational. *)
Record Prediction := {
  className : string;
  probability : Q
}.

(** A loaded [mobilenet.MobileNet] object: opaque to the component. *)
Inductive MobileNet := Handle (id : nat).

(** The argument of [mobilenet.load]. *)
Record ModelConfig := {
  version : nat;
  alpha : Q
}.

(** The part of a DOM [File] the handlers read. *)
Record File := {
  name : string;
  type : string
}.

(** A suspended continuation.  The constructor tells at which source line
    the computation waits. *)
Inductive Task :=
| AwaitTfReady                                   (* loadModel: await tf.ready() *)
| AwaitSetBackend (backend : string)             (* loadModel: await tf.setBackend(..) *)
| AwaitMobilenetLoad (cfg : ModelConfig)         (* loadModel: await mobilenet.load(..) *)
| RetryTimer (delayMs : nat)                     (* setTimeout(loadModel, ..) *)
| FileReading (file : File)                      (* reader.readAsDataURL(file) *)
| ImageDecoding (src : string)                   (* img.src = dataUrl *)
| AwaitImageComplete (img : string)              (* analyzeImage: await new Promise(..) *)
| AwaitClassify (m : MobileNet) (img : string) (topk : nat).
                                                 (* analyzeImage: await model.classify(img, 5) *)

(** How the environment resumes a suspended continuation. *)
Inductive Settlement :=
| Resolved                                       (* promise fulfilled, timer fired, onload *)
| ResolvedModel (m : MobileNet)                  (* mobilenet.load fulfilled with m *)
| ResolvedDataURL (url : string)                 (* reader.onload, e.target.result *)
| ResolvedPredictions (ps : list Prediction)     (* classify fulfilled with ps *)
| Rejected.                                      (* promise rejected, onerror *)

(** The hooks of [App] (lines 12-19) and the table of suspended tasks. *)
Record World := {
  image : option string;
  predictions : list Prediction;
  isAnalyzing : bool;
  isModelLoading : bool;
  error : option string;
  modelRef : option MobileNet;
  retryCount : nat;
  tasks : list (option Task)
}.

Definition setImage (v : option string) (w : World) : World :=
  {| image := v; predictions := predictions w; isAnalyzing := isAnalyzing w;
     isModelLoading := isModelLoading w; error := error w;
     modelRef := modelRef w; retryCount := retryCount w; tasks := tasks w |}.

Definition setPredictions (v : list Prediction) (w : World) : World :=
  {| image := image w; predictions := v; isAnalyzing := isAnalyzing w;
     isModelLoading := isModelLoading w; error := error w;
     modelRef := modelRef w; retryCount := retryCount w; tasks := tasks w |}.

Definition setIsAnalyzing (v : bool) (w : World) : World :=
  {| image := image w; predictions := predictions w; isAnalyzing := v;
     isModelLoading := isModelLoading w; error := error w;
     modelRef := modelRef w; retryCount := retryCount w; tasks := tasks w |}.

Definition setIsModelLoading (v : bool) (w : World) : World :=
  {| image := image w; predictions := predictions w; isAnalyzing := isAnalyzing w;
     isModelLoading := v; error := error w;
     modelRef := modelRef w; retryCount := retryCount w; tasks := tasks w |}.

Definition setError (v : option string) (w : World) : World :=
  {| image := image w; predictions := predictions w; isAnalyzing := isAnalyzing w;
     isModelLoading := isModelLoading w; error := v;
     modelRef := modelRef w; retryCount := retryCount w; tasks := tasks w |}.

Definition setModelRef (v : option MobileNet) (w : World) : World :=
  {| image := image w; predictions := predictions w; isAnalyzing := isAnalyzing w;
     isModelLoading := isModelLoading w; error := error w;
     modelRef := v; retryCount := retryCount w; tasks := tasks w |}.

Definition setRetryCount (v : nat) (w : World) : World :=
  {| image := image w; predictions := predictions w; isAnalyzing := isAnalyzing w;
     isModelLoading := isModelLoading w; error := error w;
     modelRef := modelRef w; retryCount := v; tasks := tasks w |}.

Definition setTasks (v : list (option Task)) (w : World) : World :=
  {| image := image w; predictions := predictions w; isAnalyzing := isAnalyzing w;
     isModelLoading := isModelLoading w; error := error w;
     modelRef := modelRef w; retryCount := retryCount w; tasks := v |}.

(** ** The task table *)

(** A call made by a user event or by the mount effect gets a fresh slot. *)
Definition alloc (w : World) : World := setTasks (tasks w ++ [None]) w.

(** The computation of slot [i] waits at [t]. *)
Definition suspend (i : nat) (t : Task) (w : World) : World :=
  setTasks (<[i := Some t]> (tasks w)) w.

(** The computation of slot [i] has returned. *)
Definition finish (i : nat) (w : World) : World :=
  setTasks (<[i := None]> (tasks w)) w.

(** ** Messages *)

Definition maxAttempts : nat := 3.
Definition retryDelayMs : nat := 2000.
Definition topK : nat := 5.

Definition retryMessage (n : nat) : string :=
  "Loading failed. Retrying... (Attempt " +:+ pretty n +:+ "/3)".
Definition terminalMessage : string :=
  "Unable to load AI model. Please check your internet connection and refresh the page.".
Definition modelNotReadyMessage : string :=
  "Model not loaded yet. Please try again in a moment.".
Definition inferenceErrorMessage : string :=
  "Error analyzing image. Please try again.".
Definition unsupportedTypeMessage : string :=
  "Please upload an image file (JPG, PNG)".
Definition decodeErrorMessage : string :=
  "Error loading image. Please try another file.".
Definition readErrorMessage : string :=
  "Error reading file. Please try again.".

Definition loadConfig : ModelConfig := {| version := 2; alpha := 1%Q |}.

(** ** loadModel (lines 21-51) *)

(** Lines 23-27: the synchronous prefix, up to [await tf.ready()]. *)
Definition loadModel (i : nat) (w : World) : World :=
  suspend i AwaitTfReady (setError None (setIsModelLoading true w)).

(** Line 30. *)
Definition loadModel_setBackend (i : nat) (w : World) : World :=
  suspend i (AwaitSetBackend "webgl") w.

(** Lines 32-35. *)
Definition loadModel_load (i : nat) (w : World) : World :=
  suspend i (AwaitMobilenetLoad loadConfig) w.

(** Lines 37-39. *)
Definition loadModel_loaded (i : nat) (loadedModel : MobileNet) (w : World) : World :=
  finish i (setRetryCount 0 (setIsModelLoading false (setModelRef (Some loadedModel) w))).

(** Lines 40-50: the [catch] block, entered from any of the three awaits. *)
Definition loadModel_catch (i : nat) (w : World) : World :=
  if retryCount w <? 3 then
    let w1 := setRetryCount (retryCount w + 1) w in
    let w2 := setError (Some (retryMessage (retryCount w1))) w1 in
    suspend i (RetryTimer 2000) w2
  else
    finish i (setIsModelLoading false (setError (Some terminalMessage) w)).

(** Lines 69-72. *)
Definition handleRetry (w : World) : World :=
  let i := length (tasks w) in
  loadModel i (alloc (setRetryCount 0 w)).

(** ** analyzeImage (lines 74-98) *)

(** Lines 75-88: the guard and the prefix up to the first [await]. *)
Definition analyzeImage (i : nat) (imageElement : string) (w : World) : World :=
  match modelRef w with
  | None => finish i (setError (Some modelNotReadyMessage) w)
  | Some _ =>
      suspend i (AwaitImageComplete imageElement)
        (setError None (setIsAnalyzing true w))
  end.

(** Lines 92-97: [catch] and [finally]. *)
Definition analyzeImage_catch (i : nat) (w : World) : World :=
  finish i (setIsAnalyzing false (setError (Some inferenceErrorMessage) w)).

(** Line 90: [modelRef.current] is read again after the first await; the
    call on a null reference throws inside the [try]. *)
Definition analyzeImage_classify (i : nat) (imageElement : string) (w : World) : World :=
  match modelRef w with
  | Some m => suspend i (AwaitClassify m imageElement 5) w
  | None => analyzeImage_catch i w
  end.

(** Lines 91, 95-97. *)
Definition analyzeImage_done (i : nat) (ps : list Prediction) (w : World) : World :=
  finish i (setIsAnalyzing false (setPredictions ps w)).

(** ** handleImageUpload (lines 100-122) and handleDrop (lines 124-144) *)

(** Lines 109-121 and 128-140: [new FileReader()], [readAsDataURL]. *)
Definition readFile (file : File) (w : World) : World :=
  let i := length (tasks w) in
  suspend i (FileReading file) (alloc w).

(** [reader.onload]: lines 110-119 and 129-138. *)
Definition reader_onload (i : nat) (dataUrl : string) (w : World) : World :=
  suspend i (ImageDecoding dataUrl) (setPredictions [] (setImage (Some dataUrl) w)).

Definition reader_onerror (i : nat) (w : World) : World :=
  finish i (setError (Some readErrorMessage) w).

Definition img_onerror (i : nat) (w : World) : World :=
  finish i (setError (Some decodeErrorMessage) w).

(** [event.target.files?.[0]], then the two early returns. *)
Definition handleImageUpload (files : list File) (w : World) : World :=
  match head files with
  | None => w
  | Some file =>
      if negb (String.prefix "image/" (type file))
      then setError (Some unsupportedTypeMessage) w
      else readFile file w
  end.

(** [event.dataTransfer.files[0]], then [file && file.type.startsWith(..)]. *)
Definition handleDrop (files : list File) (w : World) : World :=
  match head files with
  | Some file =>
      if String.prefix "image/" (type file)
      then readFile file w
      else setError (Some unsupportedTypeMessage) w
  | None => setError (Some unsupportedTypeMessage) w
  end.

(** Lines 210-214: the button over the preview. *)
Definition clearImage (w : World) : World :=
  setError None (setPredictions [] (setImage None w)).

(** ** The event loop *)

Inductive Event :=
| RetryClick
| FileChange (files : list File)
| FileDrop (files : list File)
| ClearClick
| Settle (i : nat) (s : Settlement).

(** Resuming the continuation stored in slot [i]. *)
Definition resume (i : nat) (t : Task) (s : Settlement) (w : World) : option World :=
  match t, s with
  | AwaitTfReady, Resolved => Some (loadModel_setBackend i w)
  | AwaitSetBackend _, Resolved => Some (loadModel_load i w)
  | AwaitMobilenetLoad _, ResolvedModel m => Some (loadModel_loaded i m w)
  | AwaitTfReady, Rejected => Some (loadModel_catch i w)
  | AwaitSetBackend _, Rejected => Some (loadModel_catch i w)
  | AwaitMobilenetLoad _, Rejected => Some (loadModel_catch i w)
  | RetryTimer _, Resolved => Some (loadModel i w)
  | FileReading _, ResolvedDataURL url => Some (reader_onload i url w)
  | FileReading _, Rejected => Some (reader_onerror i w)
  | ImageDecoding src, Resolved => Some (analyzeImage i src w)
  | ImageDecoding _, Rejected => Some (img_onerror i w)
  | AwaitImageComplete img, Resolved => Some (analyzeImage_classify i img w)
  | AwaitClassify _ _ _, ResolvedPredictions ps => Some (analyzeImage_done i ps w)
  | AwaitClassify _ _ _, Rejected => Some (analyzeImage_catch i w)
  | _, _ => None
  end.

Definition step (w : World) (e : Event) : option World :=
  match e with
  | RetryClick => Some (handleRetry w)
  | FileChange files => Some (handleImageUpload files w)
  | FileDrop files => Some (handleDrop files w)
  | ClearClick => Some (clearImage w)
  | Settle i s =>
      match tasks w !! i with
      | Some (Some t) => resume i t s w
      | _ => None
      end
  end.

Fixpoint run (w : World) (es : list Event) : option World :=
  match es with
  | [] => Some w
  | e :: es' =>
      match step w e with
      | Some w' => run w' es'
      | None => None
      end
  end.

(** The values of the hooks at the first render (lines 12-19). *)
Definition initial : World :=
  {| image := None; predictions := []; isAnalyzing := false;
     isModelLoading := true; error := None; modelRef := None;
     retryCount := 0; tasks := [] |}.

(** The mount effect (lines 53-67) calls [loadModel] once. *)
Definition boot : World := loadModel 0 (alloc initial).

(** ** The rendered view (lines 150-266)

    Which user events the markup of the current render can deliver.  The
    component returns the loading or error screen when
    [isModelLoading || error]; the Retry button is in its error branch
    only.  The drop zone, the file input and the clear button belong to
    the main screen. *)

(** JS truthiness of a [string | null]. *)
Definition truthy (s : option string) : bool :=
  match s with
  | Some (String _ _) => true
  | _ => false
  end.

Definition offered (w : World) (e : Event) : bool :=
  match e with
  | RetryClick => negb (isModelLoading w) && truthy (error w)
  | FileChange _ => negb (isModelLoading w || truthy (error w))
  | FileDrop _ => negb (isModelLoading w || truthy (error w))
  | ClearClick => negb (isModelLoading w || truthy (error w)) && truthy (image w)
  | Settle _ _ => true
  end.

(** Executions in which the user acts only through what is rendered. *)
Fixpoint runView (w : World) (es : list Event) : option World :=
  match es with
  | [] => Some w
  | e :: es' =>
      if offered w e then
        match step w e with
        | Some w' => runView w' es'
        | None => None
        end
      else None
  end.

(** ** Observations used by the statements *)

Definition countb {A} (p : A -> bool) (l : list A) : nat :=
  length (List.filter p l).

(** A [loadModel] activation suspended at one of its awaits. *)
Definition isLoad (o : option Task) : bool :=
  match o with
  | Some AwaitTfReady | Some (AwaitSetBackend _) | Some (AwaitMobilenetLoad _) => true
  | _ => false
  end.

(** A load attempt or its scheduled successor. *)
Definition isLoadChain (o : option Task) : bool :=
  match o with
  | Some (RetryTimer _) => true
  | _ => isLoad o
  end.

(** A submitted image past its file read: decoding or in inference. *)
Definition isInFlight (o : option Task) : bool :=
  match o with
  | Some (ImageDecoding _) | Some (AwaitImageComplete _) | Some (AwaitClassify _ _ _) => true
  | _ => false
  end.

Definition isInference (o : option Task) : bool :=
  match o with
  | Some (AwaitImageComplete _) | Some (AwaitClassify _ _ _) => true
  | _ => false
  end.

Definition loadsInFlight (w : World) : nat := countb isLoad (tasks w).
Definition loadChains (w : World) : nat := countb isLoadChain (tasks w).

(** What the presentation layer shows of the pipeline. *)
Definition observable (w : World) : option string * list Prediction * option string :=
  (image w, predictions w, error w).

(** The constants every suspended task of the component carries. *)
Definition wellFormed (o : option Task) : Prop :=
  match o with
  | Some (AwaitSetBackend b) => b = "webgl"
  | Some (AwaitMobilenetLoad cfg) => cfg = loadConfig
  | Some (RetryTimer d) => d = retryDelayMs
  | Some (AwaitClassify _ _ k) => k = topK
  | _ => True
  end.

(** *** Failing load runs *)

(** One load attempt that passes [k] awaits and is rejected at the next. *)
Definition failingAttempt (i k : nat) : list Event :=
  replicate k (Settle i Resolved) ++ [Settle i Rejected].

(** Consecutive failing attempts; between two of them the retry timer fires. *)
Fixpoint failingRun (i : nat) (ks : list nat) : list Event :=
  match ks with
  | [] => []
  | [k] => failingAttempt i k
  | k :: ks' => failingAttempt i k ++ Settle i Resolved :: failingRun i ks'
  end.

(** *** The contract of [MobileNet.classify(img, topk)]

    The library returns at most [topk] classes, highest probability first,
    each probability a softmax output. *)
Definition inUnit (p : Prediction) : bool :=
  Qle_bool 0 (probability p) && Qle_bool (probability p) 1.

Fixpoint sortedDesc (ps : list Prediction) : bool :=
  match ps with
  | p :: (q :: _) as rest => Qle_bool (probability q) (probability p) && sortedDesc rest
  | _ => true
  end.

Definition topKContract (k : nat) (ps : list Prediction) : bool :=
  (length ps <=? k) && sortedDesc ps && forallb inUnit ps.

(** *** Two overlapping submissions *)

(** The settlements delivered to slot [j], in order. *)
Definition slotEvents (j : nat) (es : list Event) : list Settlement :=
  omap (fun e => match e with
                 | Settle i s => if decide (i = j) then Some s else None
                 | _ => None
                 end) es.

Definition onSlots (a b : nat) (e : Event) : Prop :=
  match e with
  | Settle i _ => i = a \/ i = b
  | _ => False
  end.

(** The submission of [file] alone, on a fresh main screen with the
    model reference [m]: what its own resolutions lead to. *)
Definition solo (m : option MobileNet) (file : File) : World :=
  readFile file (setModelRef m (setIsModelLoading false initial)).

Definition outcome (m : option MobileNet) (file : File) (ss : list Settlement)
  : option (option string * list Prediction * option string) :=
  observable <$> run (solo m file) (map (Settle 0) ss).

(** No event of the list delivers a loaded model. *)
Definition loadsModel (e : Event) : bool :=
  match e with
  | Settle _ (ResolvedModel _) => true
  | _ => false
  end.

(** *** Invariants and auxiliary worlds *)

(** The content of a slot; a slot that was never allocated is empty. *)
Definition slot (w : World) (i : nat) : option Task := default None (tasks w !! i).

(** A slot whose file read is over: decoding, in inference, or done. *)
Definition postRead (o : option Task) : bool :=
  match o with
  | None => true
  | _ => isInFlight o
  end.

Definition postReadAt (w : World) (j : nat) : Prop :=
  exists o, tasks w !! j = Some o /\ postRead o = true.

(** While no model was ever loaded, no analysis has started. *)
Definition idleWithoutModel (w : World) : Prop :=
  modelRef w = None -> isAnalyzing w = false /\ countb isInference (tasks w) = 0.

(** A failure below the bound and the timer it schedules. *)
Definition failAndRetry (i : nat) (w : World) : World :=
  loadModel i (loadModel_catch i w).

(** At most one load chain, and none while the loading flag is off. *)
Definition chainInv (w : World) : Prop :=
  loadChains w <= 1 /\ (isModelLoading w = false -> loadChains w = 0).

(** *** Concrete inputs *)

Definition pngFile : File := {| name := "cat.png"; type := "image/png" |}.

Definition txtFile : File := {| name := "notes.txt"; type := "text/plain" |}.

Definition tabby : Prediction := {| className := "tabby"; probability := 7 # 10 |}.
Definition tiger_cat : Prediction := {| className := "tiger cat"; probability := 2 # 10 |}.
Definition lynx : Prediction := {| className := "lynx"; probability := 2 # 10 |}.

Definition jpgFile : File := {| name := "dog.jpg"; type := "image/jpeg" |}.
Definition urlA : string := "data:image/png;base64,AAAA".
Definition urlB : string := "data:image/jpeg;base64,BBBB".
Definition predsA : list Prediction := [tabby; tiger_cat].
Definition predsB : list Prediction := [lynx].

(** Model loaded, image A submitted, read and decoded, its inference
    pending in slot 1. *)
Definition inferringA : World :=
  {| image := Some urlA; predictions := []; isAnalyzing := true;
     isModelLoading := false; error := None; modelRef := Some (Handle 1);
     retryCount := 0; tasks := [None; Some (AwaitClassify (Handle 1) urlA 5)] |}.

(** Both pipelines over, B's image shown: with B's predictions, and with
    those of A. *)
Definition shownB : World :=
  {| image := Some urlB; predictions := predsB; isAnalyzing := false;
     isModelLoading := false; error := None; modelRef := Some (Handle 1);
     retryCount := 0; tasks := [None; None; None] |}.

Definition overwrittenByA : World :=
  {| image := Some urlB; predictions := predsA; isAnalyzing := false;
     isModelLoading := false; error := None; modelRef := Some (Handle 1);
     retryCount := 0; tasks := [None; None; None] |}.

(** A manual retry made while a retry timer was pending, after the timer
    fired. *)
Definition twoLoads : World :=
  {| image := None; predictions := []; isAnalyzing := false;
     isModelLoading := true; error := None; modelRef := None;
     retryCount := 0; tasks := [Some AwaitTfReady; Some AwaitTfReady] |}.

(** ** What is rendered (lines 150-266) *)

(** The main screen, lines 179-266: the preview with its clear button or
    the drop zone, the analysing spinner, the error banner and the list
    of results. *)
Record MainView := {
  preview : option string;
  clearButton : bool;
  analyzingSpinner : bool;
  errorBanner : option string;
  results : list Prediction
}.

Inductive Screen :=
| LoadingScreen
| ErrorScreen (message : string)
| MainScreen (v : MainView).

Definition mainView (w : World) : MainView :=
  {| preview := if truthy (image w) then image w else None;
     clearButton := truthy (image w);
     analyzingSpinner := isAnalyzing w;
     errorBanner := if truthy (error w) then error w else None;
     results := predictions w |}.

(** Lines 150-177: the early return, and inside it the spinner or the
    message with the Retry button. *)
Definition screen (w : World) : Screen :=
  if isModelLoading w || truthy (error w) then
    if isModelLoading w then LoadingScreen
    else ErrorScreen (default "" (error w))
  else MainScreen (mainView w).

(** A submitted image at any stage of its pipeline. *)
Definition isPipeline (o : option Task) : bool :=
  match o with
  | Some (FileReading _) => true
  | _ => isInFlight o
  end.

(** A load that fails [length ks] times, each failure followed by its
    timer, and then succeeds with [m]. *)
Definition retriedLoad (i : nat) (ks : list nat) (m : MobileNet) : list Event :=
  concat (map (fun k => failingAttempt i k ++ [Settle i Resolved]) ks)
  ++ [Settle i Resolved; Settle i Resolved; Settle i (ResolvedModel m)].

(** While a retry message is set, the loading flag is on and the load
    chain waits on its timer. *)
Definition retryInv (w : World) : Prop :=
  forall n, error w = Some (retryMessage n) ->
            isModelLoading w = true /\ loadsInFlight w = 0.

(** Without a model the main screen is not rendered and no image has
    been submitted; the model-not-ready message has not been set. *)
Definition viewInv (w : World) : Prop :=
  (modelRef w = None ->
     (isModelLoading w = true \/ truthy (error w) = true) /\
     countb isPipeline (tasks w) = 0) /\
  error w <> Some modelNotReadyMessage.

(** Two inferences pending at once: A's and B's. *)
Definition inferringAB : World :=
  {| image := Some urlB; predictions := []; isAnalyzing := true;
     isModelLoading := false; error := None; modelRef := Some (Handle 1);
     retryCount := 0;
     tasks := [None; Some (AwaitClassify (Handle 1) urlA 5);
               Some (AwaitClassify (Handle 1) urlB 5)] |}.

(** A list no [classify] honouring its contract would return: six
    entries, not in order, one probability above 1. *)
Definition unrankedSix : list Prediction :=
  [ {| className := "tabby"; probability := 1 # 10 |};
    {| className := "tiger cat"; probability := 9 # 10 |};
    {| className := "lynx"; probability := 3 # 2 |};
    {| className := "Egyptian cat"; probability := 2 # 10 |};
    {| className := "Persian cat"; probability := 2 # 10 |};
    {| className := "Siamese cat"; probability := 2 # 10 |} ].

(** * Properties *)

(** ** The task table *)

Section Counting.
Context {A : Type} (p : A -> bool).

Lemma countb_app (l1 l2 : list A) :
  countb p (l1 ++ l2) = countb p l1 + countb p l2.
Proof. unfold countb. by rewrite List.filter_app, length_app. Qed.

Lemma countb_cons (x : A) (l : list A) :
  countb p (x :: l) = Nat.b2n (p x) + countb p l.
Proof. unfold countb. simpl. by destruct (p x). Qed.

(** Overwriting slot [i] trades the old entry for the new one. *)
Lemma countb_insert (l : list A) (i : nat) (x y : A) :
  l !! i = Some x ->
  countb p (<[i:=y]> l) + Nat.b2n (p x) = countb p l + Nat.b2n (p y).
Proof.
  revert i. induction l as [|z l IH]; intros [|i] Hi; simplify_eq/=.
  - rewrite !countb_cons. lia.
  - rewrite !countb_cons. specialize (IH i Hi). lia.
Qed.

End Counting.

Lemma alloc_insert {A} (l : list A) (x y : A) :
  <[length l := y]> (l ++ [x]) = l ++ [y].
Proof.
  rewrite insert_app_r_alt by done. by rewrite Nat.sub_diag.
Qed.

Lemma tasks_readFile (file : File) (w : World) :
  tasks (readFile file w) = tasks w ++ [Some (FileReading file)].
Proof. unfold readFile, suspend, alloc. simpl. apply alloc_insert. Qed.

Lemma tasks_handleRetry (w : World) :
  tasks (handleRetry w) = tasks w ++ [Some AwaitTfReady].
Proof. unfold handleRetry, loadModel, suspend, alloc. simpl. apply alloc_insert. Qed.

(** ** Executions *)

Lemma run_app (w : World) (es1 es2 : list Event) :
  run w (es1 ++ es2) = run w es1 ≫= fun w1 => run w1 es2.
Proof.
  revert w. induction es1 as [|e es1 IH]; intros w; simpl; [done|].
  destruct (step w e); simpl; [apply IH | done].
Qed.

(** A property kept by every step holds along every execution. *)
Lemma run_invariant (P : World -> Prop) :
  (forall w w' e, P w -> step w e = Some w' -> P w') ->
  forall es w w', P w -> run w es = Some w' -> P w'.
Proof.
  intros Hstep es. induction es as [|e es IH]; intros w w' Hw Hrun; simpl in Hrun.
  - by simplify_eq.
  - destruct (step w e) as [w1|] eqn:He; [|done]. eauto.
Qed.

Lemma step_settle (w : World) (i : nat) (t : Task) (s : Settlement) :
  tasks w !! i = Some (Some t) -> step w (Settle i s) = resume i t s w.
Proof. intros Hi. simpl. by rewrite Hi. Qed.

(** Every case of [step]: the event, the task it resumes, the handler run. *)
Ltac step_cases H :=
  match type of H with
  | step ?w ?e = Some ?w' =>
      destruct e as [| ? | ? | |?i ?s]; simpl in H;
      [ | | | |
        let t := fresh "t" in
        let Ht := fresh "Ht" in
        destruct (tasks w !! i) as [[t|]|] eqn:Ht; [|done|done];
        destruct t, s; simpl in H; try done ];
      injection H as <-
  end.

(** ** Ingestion *)

(** C10. Invoked with an empty selection, the file-picker change handler
    returns without changing any state (no message, same image, same
    predictions, same everything); a drop event that carries no file sets
    the unsupported-type message. *)
Theorem empty_selection (w : World) :
  handleImageUpload [] w = w /\
  step w (FileChange []) = Some w /\
  step w (FileDrop []) = Some (setError (Some unsupportedTypeMessage) w) /\
  error (handleDrop [] w) = Some unsupportedTypeMessage.
Proof. by repeat split. Qed.

(** C4. A file, picked or dropped, whose declared MIME type does not start
    with "image/" is rejected with the unsupported-type message and nothing
    else changes: image, predictions, pending decodes and analyses (the task
    table), the analysing flag and the model state (reference, loading
    flag, retry counter) are as before. *)
Theorem non_image_rejected (w : World) (files : list File) (file : File) :
  head files = Some file ->
  String.prefix "image/" (type file) = false ->
  exists w',
    step w (FileChange files) = Some w' /\
    step w (FileDrop files) = Some w' /\
    error w' = Some unsupportedTypeMessage /\
    image w' = image w /\
    predictions w' = predictions w /\
    isAnalyzing w' = isAnalyzing w /\
    tasks w' = tasks w /\
    modelRef w' = modelRef w /\
    isModelLoading w' = isModelLoading w /\
    retryCount w' = retryCount w.
Proof.
  intros Hfile Htype.
  exists (setError (Some unsupportedTypeMessage) w).
  simpl. unfold handleImageUpload, handleDrop.
  rewrite Hfile, Htype. by repeat split.
Qed.

Lemma non_image_rejected_witness :
  exists w',
    step boot (FileChange [ {| name := "notes.txt"; type := "text/plain" |} ]) = Some w' /\
    step boot (FileDrop [ {| name := "notes.txt"; type := "text/plain" |} ]) = Some w' /\
    error w' = Some unsupportedTypeMessage /\
    image w' = image boot /\
    predictions w' = predictions boot /\
    isAnalyzing w' = isAnalyzing boot /\
    tasks w' = tasks boot /\
    modelRef w' = modelRef boot /\
    isModelLoading w' = isModelLoading boot /\
    retryCount w' = retryCount boot.
Proof.
  apply (non_image_rejected boot
           [ {| name := "notes.txt"; type := "text/plain" |} ]
           {| name := "notes.txt"; type := "text/plain" |}); reflexivity.
Defined.

(** ** The model reference *)

(** Only a fulfilled [mobilenet.load] writes [modelRef.current]. *)
Lemma step_modelRef (w w' : World) (e : Event) :
  step w e = Some w' ->
  modelRef w' = modelRef w \/
  exists i m, e = Settle i (ResolvedModel m) /\ modelRef w' = Some m.
Proof.
  intros H. step_cases H; eauto;
    unfold handleImageUpload, handleDrop, loadModel_catch, analyzeImage,
      analyzeImage_classify;
    repeat case_match; eauto.
Qed.

Lemma step_modelRef_Some (w w' : World) (e : Event) :
  step w e = Some w' -> is_Some (modelRef w) -> is_Some (modelRef w').
Proof.
  intros H Hm. destruct (step_modelRef _ _ _ H) as [->|(i & m & _ & ->)]; eauto.
Qed.

Lemma countb_isInference_insert (l : list (option Task)) (i : nat) (o : option Task) :
  countb isInference l = 0 -> isInference o = false ->
  countb isInference (<[i:=o]> l) = 0.
Proof.
  intros Hl Ho. destruct (l !! i) as [x|] eqn:Hi.
  - pose proof (countb_insert isInference l i x o Hi) as Hc.
    rewrite Ho in Hc. simpl in Hc. lia.
  - rewrite list_insert_ge; [done|]. by apply lookup_ge_None.
Qed.

Lemma step_idleWithoutModel (w w' : World) (e : Event) :
  idleWithoutModel w -> step w e = Some w' -> idleWithoutModel w'.
Proof.
  intros Hinv H Hnone.
  assert (modelRef w = None) as Hw.
  { destruct (modelRef w) eqn:Hm; [|done].
    destruct (step_modelRef_Some _ _ _ H) as [m' Hm']; [by eauto|congruence]. }
  destruct (Hinv Hw) as [Han Hcnt]. clear Hinv.
  step_cases H;
    unfold handleRetry, handleImageUpload, handleDrop, loadModel_catch, analyzeImage,
      analyzeImage_classify, analyzeImage_catch, analyzeImage_done in *;
    repeat case_match; simplify_eq/=;
    rewrite ?tasks_readFile, ?alloc_insert, ?countb_app; simpl;
    try (split; [done|]);
    try (rewrite Hcnt; done);
    try (apply countb_isInference_insert; done).
Qed.

Lemma boot_idleWithoutModel : idleWithoutModel boot.
Proof. by intros _. Qed.

(** C3. A classification call made while no model is loaded fails at once
    with the model-not-ready message and performs no inference: the
    predictions are unchanged, the analysing flag stays off and no
    inference is pending afterwards. *)
Theorem analyzeImage_model_not_ready
    (es : list Event) (w : World) (i : nat) (img : string) :
  run boot es = Some w ->
  modelRef w = None ->
  tasks w !! i = Some (Some (ImageDecoding img)) ->
  step w (Settle i Resolved) = Some (analyzeImage i img w) /\
  analyzeImage i img w = finish i (setError (Some modelNotReadyMessage) w) /\
  error (analyzeImage i img w) = Some modelNotReadyMessage /\
  predictions (analyzeImage i img w) = predictions w /\
  isAnalyzing (analyzeImage i img w) = false /\
  tasks (analyzeImage i img w) !! i = Some None /\
  countb isInference (tasks (analyzeImage i img w)) = 0.
Proof.
  intros Hrun Hnone Hi.
  destruct (run_invariant idleWithoutModel step_idleWithoutModel
              es boot w boot_idleWithoutModel Hrun Hnone) as [Han Hcnt].
  rewrite (step_settle _ _ _ _ Hi). cbn [resume]. unfold analyzeImage. rewrite Hnone. simpl.
  repeat split; try done.
  - apply list_lookup_insert_eq. by eapply lookup_lt_Some.
  - by apply countb_isInference_insert.
Qed.

Lemma analyzeImage_model_not_ready_witness :
  let w := {| image := Some "data:image/png;base64,AAAA"; predictions := [];
              isAnalyzing := false; isModelLoading := true; error := None;
              modelRef := None; retryCount := 0;
              tasks := [Some AwaitTfReady;
                        Some (ImageDecoding "data:image/png;base64,AAAA")] |} in
  step w (Settle 1 Resolved) = Some (analyzeImage 1 "data:image/png;base64,AAAA" w) /\
  analyzeImage 1 "data:image/png;base64,AAAA" w
    = finish 1 (setError (Some modelNotReadyMessage) w) /\
  error (analyzeImage 1 "data:image/png;base64,AAAA" w) = Some modelNotReadyMessage /\
  predictions (analyzeImage 1 "data:image/png;base64,AAAA" w) = predictions w /\
  isAnalyzing (analyzeImage 1 "data:image/png;base64,AAAA" w) = false /\
  tasks (analyzeImage 1 "data:image/png;base64,AAAA" w) !! 1 = Some None /\
  countb isInference (tasks (analyzeImage 1 "data:image/png;base64,AAAA" w)) = 0.
Proof.
  apply (analyzeImage_model_not_ready
           [FileDrop [pngFile]; Settle 1 (ResolvedDataURL "data:image/png;base64,AAAA")]);
    reflexivity.
Defined.

(** C9. Once a model has been loaded the reference is never null again:
    along every execution it keeps holding a handle, the very same one
    as long as no later load succeeds, so every load failure (retry
    scheduled or retries exhausted) leaves it intact and a classification
    call still passes the guard and reaches the old model. *)
Theorem model_handle_never_cleared
    (es : list Event) (w w' : World) (m : MobileNet) :
  run w es = Some w' ->
  modelRef w = Some m ->
  (exists m', modelRef w' = Some m' /\
     (forallb (fun e => negb (loadsModel e)) es = true -> m' = m) /\
     forall i img,
       analyzeImage i img w'
         = suspend i (AwaitImageComplete img) (setError None (setIsAnalyzing true w')) /\
       analyzeImage_classify i img w' = suspend i (AwaitClassify m' img 5) w') /\
  (forall i, modelRef (loadModel_catch i w') = modelRef w').
Proof.
  revert w m. induction es as [|e es IH]; intros w m Hrun Hm; simpl in Hrun.
  - simplify_eq. split.
    + exists m. unfold analyzeImage, analyzeImage_classify. rewrite Hm. done.
    + intros i. unfold loadModel_catch. by case_match.
  - destruct (step w e) as [w1|] eqn:He; [|done].
    destruct (step_modelRef _ _ _ He) as [Hsame|(i & m1 & -> & Hm1)].
    + rewrite Hm in Hsame.
      destruct (IH w1 m Hrun Hsame) as [(m' & Hm' & Hkeep & Hcall) Hcatch].
      split; [|done]. exists m'. repeat split; try apply Hcall; try done.
      simpl. intros [_ Hrest]%andb_true_iff. by apply Hkeep.
    + destruct (IH w1 m1 Hrun Hm1) as [(m' & Hm' & Hkeep & Hcall) Hcatch].
      split; [|done]. exists m'. repeat split; try apply Hcall; done.
Qed.

Lemma model_handle_never_cleared_witness :
  let w := {| image := None; predictions := []; isAnalyzing := false;
              isModelLoading := false; error := Some unsupportedTypeMessage;
              modelRef := Some (Handle 1); retryCount := 0; tasks := [None] |} in
  let es := [RetryClick; Settle 1 Rejected; Settle 1 Resolved;
             Settle 1 Rejected; Settle 1 Resolved;
             Settle 1 Rejected; Settle 1 Resolved; Settle 1 Rejected] in
  run w es = Some (finish 1 (setIsModelLoading false
                       (setError (Some terminalMessage) (setRetryCount 3 (alloc w))))) /\
  exists m', modelRef (finish 1 (setIsModelLoading false
                (setError (Some terminalMessage) (setRetryCount 3 (alloc w))))) = Some m' /\
             m' = Handle 1.
Proof.
  intros w es. split; [reflexivity|].
  destruct (model_handle_never_cleared es w
              (finish 1 (setIsModelLoading false
                 (setError (Some terminalMessage) (setRetryCount 3 (alloc w)))))
              (Handle 1) eq_refl eq_refl) as [(m' & Hm' & Hkeep & _) _].
  exists m'. split; [exact Hm'|]. apply Hkeep. reflexivity.
Defined.

(** ** The retry counter *)

Lemma step_retryCount (w w' : World) (e : Event) :
  retryCount w <= 3 -> step w e = Some w' -> retryCount w' <= 3.
Proof.
  intros Hle H.
  step_cases H;
    unfold handleImageUpload, handleDrop, loadModel_catch, analyzeImage,
      analyzeImage_classify in *;
    repeat case_match; simpl; try lia.
  all: match goal with Hlt : (_ <? 3) = true |- _ => apply Nat.ltb_lt in Hlt; lia end.
Qed.

(** C5. The retry counter never exceeds [maxAttempts] = 3 in any execution
    from mount; every successful model load sets it to 0 whatever it was,
    and so does every manual retry. *)
Theorem retryCount_bounded_and_reset (es : list Event) (w : World) :
  run boot es = Some w ->
  retryCount w <= maxAttempts /\
  (forall i cfg m,
     tasks w !! i = Some (Some (AwaitMobilenetLoad cfg)) ->
     exists w', step w (Settle i (ResolvedModel m)) = Some w' /\
                retryCount w' = 0 /\ modelRef w' = Some m) /\
  (exists w', step w RetryClick = Some w' /\ retryCount w' = 0).
Proof.
  intros Hrun. repeat split.
  - apply (run_invariant (fun w => retryCount w <= 3) step_retryCount es boot w);
      [simpl; lia | done].
  - intros i cfg m Hi. rewrite (step_settle _ _ _ _ Hi). simpl. eauto.
  - simpl. eauto.
Qed.

Lemma retryCount_bounded_and_reset_witness :
  let es := [Settle 0 Rejected; Settle 0 Resolved; Settle 0 Resolved;
             Settle 0 Rejected; Settle 0 Resolved; Settle 0 Resolved;
             Settle 0 Resolved] in
  let w := {| image := None; predictions := []; isAnalyzing := false;
              isModelLoading := true; error := None; modelRef := None;
              retryCount := 2; tasks := [Some (AwaitMobilenetLoad loadConfig)] |} in
  run boot es = Some w /\
  retryCount w <= maxAttempts /\
  (forall i cfg m,
     tasks w !! i = Some (Some (AwaitMobilenetLoad cfg)) ->
     exists w', step w (Settle i (ResolvedModel m)) = Some w' /\
                retryCount w' = 0 /\ modelRef w' = Some m) /\
  (exists w', step w RetryClick = Some w' /\ retryCount w' = 0).
Proof.
  intros es w. split; [reflexivity|].
  apply (retryCount_bounded_and_reset es w). reflexivity.
Defined.

(** ** Bounded automatic retry *)

Lemma lookup_suspend (i : nat) (t : Task) (w : World) :
  i < length (tasks w) -> tasks (suspend i t w) !! i = Some (Some t).
Proof. intros Hi. simpl. by apply list_lookup_insert_eq. Qed.

Lemma loadModel_catch_suspend (i : nat) (t : Task) (w : World) :
  loadModel_catch i (suspend i t w) = loadModel_catch i w.
Proof.
  unfold loadModel_catch, suspend, finish, setTasks, setError, setRetryCount,
    setIsModelLoading. simpl.
  destruct (retryCount w <? 3); f_equal; apply list_insert_insert_eq.
Qed.

(** A failing attempt runs the [catch] block once, whichever await rejects. *)
Lemma run_failingAttempt (w : World) (i k : nat) (rest : list Event) :
  k <= 2 ->
  tasks w !! i = Some (Some AwaitTfReady) ->
  run w (failingAttempt i k ++ rest) = run (loadModel_catch i w) rest.
Proof.
  intros Hk Hi. pose proof (lookup_lt_Some _ _ _ Hi) as Hlen.
  destruct k as [|[|[|k]]]; [| | |lia]; unfold failingAttempt; cbn [replicate app run].
  - by rewrite (step_settle _ _ _ _ Hi).
  - rewrite (step_settle _ _ _ _ Hi). cbn [resume]. unfold loadModel_setBackend.
    rewrite (step_settle _ _ _ _ (lookup_suspend _ _ _ Hlen)). cbn [resume].
    by rewrite loadModel_catch_suspend.
  - rewrite (step_settle _ _ _ _ Hi). cbn [resume]. unfold loadModel_setBackend.
    rewrite (step_settle _ _ _ _ (lookup_suspend _ _ _ Hlen)). cbn [resume].
    unfold loadModel_load.
    assert (i < length (tasks (suspend i (AwaitSetBackend "webgl") w))) as Hlen'.
    { simpl. by rewrite length_insert. }
    rewrite (step_settle _ _ _ _ (lookup_suspend _ _ _ Hlen')). cbn [resume].
    by rewrite !loadModel_catch_suspend.
Qed.

Lemma run_failAndRetry (w : World) (i k : nat) (rest : list Event) :
  k <= 2 ->
  tasks w !! i = Some (Some AwaitTfReady) ->
  retryCount w < 3 ->
  run w (failingAttempt i k ++ Settle i Resolved :: rest)
    = run (failAndRetry i w) rest.
Proof.
  intros Hk Hi Hlt. rewrite run_failingAttempt by done.
  pose proof (lookup_lt_Some _ _ _ Hi) as Hlen.
  apply Nat.ltb_lt in Hlt.
  assert (tasks (loadModel_catch i w) !! i = Some (Some (RetryTimer 2000))) as Ht.
  { unfold loadModel_catch. rewrite Hlt. simpl. by apply list_lookup_insert_eq. }
  cbn [run]. by rewrite (step_settle _ _ _ _ Ht).
Qed.

Lemma failAndRetry_spec (w : World) (i : nat) :
  tasks w !! i = Some (Some AwaitTfReady) ->
  retryCount w < 3 ->
  tasks (failAndRetry i w) = tasks w /\
  retryCount (failAndRetry i w) = retryCount w + 1 /\
  isModelLoading (failAndRetry i w) = true.
Proof.
  intros Hi Hlt. unfold failAndRetry, loadModel_catch.
  apply Nat.ltb_lt in Hlt. rewrite Hlt. simpl. repeat split.
  rewrite list_insert_insert_eq. by apply list_insert_id.
Qed.

Lemma loadModel_catch_spec (w : World) (i : nat) :
  (retryCount w < 3 ->
     error (loadModel_catch i w) = Some (retryMessage (retryCount w + 1)) /\
     retryCount (loadModel_catch i w) = retryCount w + 1 /\
     isModelLoading (loadModel_catch i w) = isModelLoading w /\
     tasks (loadModel_catch i w) = <[i := Some (RetryTimer 2000)]> (tasks w)) /\
  (3 <= retryCount w ->
     error (loadModel_catch i w) = Some terminalMessage /\
     retryCount (loadModel_catch i w) = retryCount w /\
     isModelLoading (loadModel_catch i w) = false /\
     tasks (loadModel_catch i w) = <[i := None]> (tasks w)).
Proof.
  unfold loadModel_catch. split; intros Hc.
  - apply Nat.ltb_lt in Hc. by rewrite Hc.
  - apply Nat.ltb_ge in Hc. by rewrite Hc.
Qed.

Lemma terminalMessage_distinct (n : nat) : terminalMessage <> retryMessage n.
Proof. unfold terminalMessage, retryMessage. simpl. discriminate. Qed.

(** C1. In a load run in which every attempt fails (at whichever await),
    started with the counter at 0 as the mount effect and the manual retry
    do, the n-th consecutive failure, for 1 <= n <= 3, sets the message
    "Loading failed. Retrying... (Attempt n/3)", brings the counter to n
    and leaves a 2000 ms timer as the only continuation of the run, so
    exactly 3 automatic retries are made; the 4th failure sets the
    terminal message, which differs from every retry message, clears the
    loading flag and schedules nothing. *)
Theorem all_attempts_fail (w0 : World) (i : nat) (ks : list nat) :
  tasks w0 !! i = Some (Some AwaitTfReady) ->
  retryCount w0 = 0 ->
  isModelLoading w0 = true ->
  Forall (fun k => k <= 2) ks ->
  1 <= length ks <= maxAttempts + 1 ->
  exists w,
    run w0 (failingRun i ks) = Some w /\
    (length ks <= maxAttempts ->
       error w = Some (retryMessage (length ks)) /\
       retryCount w = length ks /\
       isModelLoading w = true /\
       tasks w = <[i := Some (RetryTimer retryDelayMs)]> (tasks w0)) /\
    (length ks = maxAttempts + 1 ->
       error w = Some terminalMessage /\
       retryCount w = maxAttempts /\
       isModelLoading w = false /\
       tasks w = <[i := None]> (tasks w0)) /\
    terminalMessage <> retryMessage (length ks) /\
    retryMessage 1 = "Loading failed. Retrying... (Attempt 1/3)" /\
    retryMessage 2 = "Loading failed. Retrying... (Attempt 2/3)" /\
    retryMessage 3 = "Loading failed. Retrying... (Attempt 3/3)".
Proof.
  intros Hi Hrc Hload Hks Hlen. unfold maxAttempts, retryDelayMs in *.
  (* the world in which the last of the attempts starts *)
  assert (forall ks w, Forall (fun k => k <= 2) ks ->
            tasks w !! i = Some (Some AwaitTfReady) ->
            retryCount w + length ks <= 3 ->
            forall k, k <= 2 ->
            exists w1, run w (failingRun i (ks ++ [k])) = run w1 (failingAttempt i k ++ []) /\
                       tasks w1 = tasks w /\
                       retryCount w1 = retryCount w + length ks /\
                       (isModelLoading w = true -> isModelLoading w1 = true)) as Hprefix.
  { clear. intros ks. induction ks as [|k1 ks IH]; intros w Hks Hi Hrc k Hk.
    - exists w. simpl. rewrite app_nil_r. repeat split; [lia | done].
    - apply Forall_cons in Hks as [Hk1 Hks]. simpl in Hrc.
      destruct (failAndRetry_spec w i Hi) as (Ht & Hr & Hl); [lia|].
      destruct (IH (failAndRetry i w) Hks) with (k := k) as (w1 & Hrun & Ht1 & Hr1 & Hl1);
        [by rewrite Ht | lia | done |].
      exists w1. repeat split.
      + rewrite <- Hrun.
        change (failingRun i ((k1 :: ks) ++ [k]))
          with (failingRun i (k1 :: (ks ++ [k]))).
        destruct (ks ++ [k]) as [|k2 l] eqn:Hl2; [by destruct ks|].
        cbn [failingRun]. fold (failingRun i (k2 :: l)).
        by apply run_failAndRetry; [|  | lia].
      + by rewrite Ht1.
      + rewrite Hr1, Hr. simpl. lia.
      + intros _. by apply Hl1. }
  destruct (exists_last (l := ks)) as (ks0 & k & ->).
  { intros Hnil. subst ks. simpl in Hlen. lia. }
  rewrite length_app in *. simpl in *.
  apply Forall_app in Hks as [Hks0 Hk]. rewrite Forall_singleton in Hk.
  destruct (Hprefix ks0 w0 Hks0 Hi) with (k := k) as (w1 & Hrun & Ht1 & Hr1 & Hl1);
    [lia | done |].
  rewrite Hrun, run_failingAttempt; [|done|by rewrite Ht1].
  exists (loadModel_catch i w1). split; [done|].
  destruct (loadModel_catch_spec w1 i) as [Hlow Hhigh].
  repeat split; try done.
  - destruct Hlow as (He & _); [lia|]. rewrite He, Hr1, Hrc. done.
  - destruct Hlow as (_ & Hr & _); [lia|]. lia.
  - destruct Hlow as (_ & _ & Hm & _); [lia|]. rewrite Hm. by apply Hl1.
  - destruct Hlow as (_ & _ & _ & Ht); [lia|]. by rewrite Ht, Ht1.
  - destruct Hhigh as (He & _); [lia|]. done.
  - destruct Hhigh as (_ & Hr & _); [lia|]. lia.
  - destruct Hhigh as (_ & _ & Hm & _); [lia|]. done.
  - destruct Hhigh as (_ & _ & _ & Ht); [lia|]. by rewrite Ht, Ht1.
Qed.

Lemma all_attempts_fail_witness :
  exists w,
    run boot (failingRun 0 [0; 2; 1; 2]) = Some w /\
    (length [0; 2; 1; 2] <= maxAttempts ->
       error w = Some (retryMessage (length [0; 2; 1; 2])) /\
       retryCount w = length [0; 2; 1; 2] /\
       isModelLoading w = true /\
       tasks w = <[0 := Some (RetryTimer retryDelayMs)]> (tasks boot)) /\
    (length [0; 2; 1; 2] = maxAttempts + 1 ->
       error w = Some terminalMessage /\
       retryCount w = maxAttempts /\
       isModelLoading w = false /\
       tasks w = <[0 := None]> (tasks boot)) /\
    terminalMessage <> retryMessage (length [0; 2; 1; 2]) /\
    retryMessage 1 = "Loading failed. Retrying... (Attempt 1/3)" /\
    retryMessage 2 = "Loading failed. Retrying... (Attempt 2/3)" /\
    retryMessage 3 = "Loading failed. Retrying... (Attempt 3/3)".
Proof.
  apply (all_attempts_fail boot 0 [0; 2; 1; 2]);
    [reflexivity | reflexivity | reflexivity | | simpl; unfold maxAttempts; lia].
  repeat constructor.
Defined.

Example failingRun_three :
  run boot (failingRun 0 [1; 0; 2])
  = Some {| image := None; predictions := []; isAnalyzing := false;
            isModelLoading := true;
            error := Some "Loading failed. Retrying... (Attempt 3/3)";
            modelRef := None; retryCount := 3;
            tasks := [Some (RetryTimer 2000)] |}.
Proof. reflexivity. Qed.

Example failingRun_four :
  run boot (failingRun 0 [1; 0; 2; 2])
  = Some {| image := None; predictions := []; isAnalyzing := false;
            isModelLoading := false; error := Some terminalMessage;
            modelRef := None; retryCount := 3; tasks := [None] |}.
Proof. reflexivity. Qed.

(** ** Overlapping loads *)

Lemma tasks_handleImageUpload_chains (files : list File) (w : World) :
  loadChains (handleImageUpload files w) = loadChains w /\
  isModelLoading (handleImageUpload files w) = isModelLoading w.
Proof.
  unfold handleImageUpload, loadChains. repeat case_match; try done.
  rewrite tasks_readFile, countb_app. unfold countb. simpl. split; [lia | done].
Qed.

Lemma tasks_handleDrop_chains (files : list File) (w : World) :
  loadChains (handleDrop files w) = loadChains w /\
  isModelLoading (handleDrop files w) = isModelLoading w.
Proof.
  unfold handleDrop, loadChains. repeat case_match; try done.
  rewrite tasks_readFile, countb_app. unfold countb. simpl. split; [lia | done].
Qed.

Lemma step_chainInv (w w' : World) (e : Event) :
  offered w e = true -> chainInv w -> step w e = Some w' -> chainInv w'.
Proof.
  unfold chainInv. intros Hoff [Hle Hidle] H.
  destruct e as [|files|files| |i s]; simpl in H, Hoff.
  - (* the Retry button is rendered only while the loading flag is off *)
    injection H as <-. apply andb_true_iff in Hoff as [Hoff _].
    apply negb_true_iff in Hoff. specialize (Hidle Hoff).
    unfold loadChains in *. rewrite tasks_handleRetry, countb_app, Hidle.
    split; [unfold countb; simpl; lia | done].
  - injection H as <-.
    destruct (tasks_handleImageUpload_chains files w) as [-> ->]. done.
  - injection H as <-.
    destruct (tasks_handleDrop_chains files w) as [-> ->]. done.
  - injection H as <-. done.
  - destruct (tasks w !! i) as [[t|]|] eqn:Ht; [|done|done].
    unfold loadChains in *.
    assert (forall o, countb isLoadChain (<[i:=o]> (tasks w))
                        + Nat.b2n (isLoadChain (Some t))
                      = countb isLoadChain (tasks w) + Nat.b2n (isLoadChain o)) as Hc.
    { intros o. by apply countb_insert. }
    destruct t, s; simpl in H; try done; injection H as <-;
      unfold loadModel_catch, analyzeImage, analyzeImage_classify;
      repeat case_match; simpl;
      match goal with
      | |- context [countb isLoadChain (<[i:=?o]> (tasks w))] =>
          specialize (Hc o); simpl in Hc
      end;
      (split; [lia|]); intros Hoff'; try done;
      try (specialize (Hidle Hoff')); lia.
Qed.

Lemma runView_invariant (P : World -> Prop) :
  (forall w w' e, offered w e = true -> P w -> step w e = Some w' -> P w') ->
  forall es w w', P w -> runView w es = Some w' -> P w'.
Proof.
  intros Hstep es. induction es as [|e es IH]; intros w w' Hw Hrun; simpl in Hrun.
  - by simplify_eq.
  - destruct (offered w e) eqn:Hoff; [|done].
    destruct (step w e) as [w1|] eqn:He; [|done]. eauto.
Qed.

Lemma runView_run (es : list Event) (w w' : World) :
  runView w es = Some w' -> run w es = Some w'.
Proof.
  revert w. induction es as [|e es IH]; intros w Hrun; simpl in *; [done|].
  destruct (offered w e); [|done]. destruct (step w e); [eauto|done].
Qed.

Lemma countb_isLoad_le (l : list (option Task)) :
  countb isLoad l <= countb isLoadChain l.
Proof.
  induction l as [|o l IH]; [done|]. rewrite !countb_cons.
  destruct o as [[]|]; simpl; lia.
Qed.

(** C7 (as the code has it). [loadModel] has no in-flight guard: it starts
    a load whenever it is called.  In executions in which the manual retry
    is invoked only through the rendered Retry button, which exists only
    while the loading flag is off, at most one load chain (a pending load
    or its scheduled retry) exists at any time, hence at most one load is
    in flight. *)
Theorem single_load_through_view (es : list Event) (w : World) :
  runView boot es = Some w ->
  loadChains w <= 1 /\ loadsInFlight w <= 1 /\
  (isModelLoading w = false -> loadChains w = 0).
Proof.
  intros Hrun.
  destruct (runView_invariant chainInv step_chainInv es boot w) as [Hle Hidle];
    [split; [by vm_compute | done] | done |].
  repeat split; try done.
  unfold loadsInFlight. etrans; [apply countb_isLoad_le | done].
Qed.

Lemma single_load_through_view_witness :
  let es := [Settle 0 Rejected; Settle 0 Resolved; Settle 0 Resolved;
             Settle 0 Resolved; Settle 0 (ResolvedModel (Handle 1));
             FileDrop [ {| name := "notes.txt"; type := "text/plain" |} ];
             RetryClick] in
  let w := {| image := None; predictions := []; isAnalyzing := false;
              isModelLoading := true; error := None;
              modelRef := Some (Handle 1); retryCount := 0;
              tasks := [None; Some AwaitTfReady] |} in
  runView boot es = Some w /\
  loadChains w <= 1 /\ loadsInFlight w <= 1 /\
  (isModelLoading w = false -> loadChains w = 0).
Proof.
  intros es w. split; [reflexivity|].
  apply (single_load_through_view es w). reflexivity.
Defined.

(** C7, refuted as stated: the manual retry entry point invoked while a
    scheduled automatic retry is pending starts a load at once, and the
    timer then starts a second one: two loads are in flight. *)
Lemma overlapping_loads :
  run boot [Settle 0 Rejected; RetryClick; Settle 0 Resolved] = Some twoLoads /\
  loadsInFlight twoLoads = 2 /\
  ~ (forall es w, run boot es = Some w -> loadsInFlight w <= 1).
Proof.
  assert (run boot [Settle 0 Rejected; RetryClick; Settle 0 Resolved]
          = Some twoLoads) as Hrun by (vm_compute; reflexivity).
  split; [exact Hrun|]. split; [vm_compute; reflexivity|].
  intros Hclaim. specialize (Hclaim _ _ Hrun).
  vm_compute in Hclaim. lia.
Qed.

(** ** The constants of the suspended calls *)

Lemma step_wellFormed (w w' : World) (e : Event) :
  Forall wellFormed (tasks w) -> step w e = Some w' -> Forall wellFormed (tasks w').
Proof.
  intros Hwf H.
  step_cases H;
    rewrite ?tasks_handleRetry;
    unfold handleImageUpload, handleDrop, loadModel_catch, analyzeImage,
      analyzeImage_classify;
    repeat case_match; rewrite ?tasks_readFile; simpl; try done;
    try (apply Forall_app; split; [done|by apply Forall_singleton]);
    by apply Forall_insert.
Qed.

Lemma reachable_wellFormed (es : list Event) (w : World) :
  run boot es = Some w -> Forall wellFormed (tasks w).
Proof.
  apply (run_invariant (fun w => Forall wellFormed (tasks w)) step_wellFormed).
  by apply Forall_singleton.
Qed.

(** C6 (as the code has it). Every invocation of [loadModel], from any
    state, sets the loading flag and clears the error message before the
    asynchronous load begins, and leaves the model reference as it is; the
    load then asks for the webgl backend and for the fixed configuration
    version 2, alpha 1.0.  The manual retry goes through the same code. *)
Theorem loadModel_start (w : World) (i : nat) :
  i < length (tasks w) ->
  error (loadModel i w) = None /\
  isModelLoading (loadModel i w) = true /\
  modelRef (loadModel i w) = modelRef w /\
  tasks (loadModel i w) !! i = Some (Some AwaitTfReady) /\
  (exists w2,
     run (loadModel i w) [Settle i Resolved; Settle i Resolved] = Some w2 /\
     tasks w2 !! i = Some (Some (AwaitMobilenetLoad {| version := 2; alpha := 1%Q |})) /\
     error w2 = None /\
     modelRef w2 = modelRef w) /\
  error (handleRetry w) = None /\
  isModelLoading (handleRetry w) = true /\
  modelRef (handleRetry w) = modelRef w.
Proof.
  intros Hi.
  assert (tasks (loadModel i w) !! i = Some (Some AwaitTfReady)) as H1.
  { simpl. by apply list_lookup_insert_eq. }
  repeat split; try done.
  exists (loadModel_load i (loadModel_setBackend i (loadModel i w))).
  cbn [run]. rewrite (step_settle _ _ _ _ H1). cbn [resume].
  assert (tasks (loadModel_setBackend i (loadModel i w)) !! i
          = Some (Some (AwaitSetBackend "webgl"))) as H2.
  { simpl. apply list_lookup_insert_eq. by rewrite length_insert. }
  rewrite (step_settle _ _ _ _ H2). cbn [resume].
  repeat split. simpl. apply list_lookup_insert_eq. by rewrite !length_insert.
Qed.

Lemma loadModel_start_witness :
  let w := {| image := None; predictions := []; isAnalyzing := false;
              isModelLoading := false; error := Some terminalMessage;
              modelRef := Some (Handle 1); retryCount := 3;
              tasks := [Some (RetryTimer 2000)] |} in
  error (loadModel 0 w) = None /\
  isModelLoading (loadModel 0 w) = true /\
  modelRef (loadModel 0 w) = modelRef w /\
  tasks (loadModel 0 w) !! 0 = Some (Some AwaitTfReady) /\
  (exists w2,
     run (loadModel 0 w) [Settle 0 Resolved; Settle 0 Resolved] = Some w2 /\
     tasks w2 !! 0 = Some (Some (AwaitMobilenetLoad {| version := 2; alpha := 1%Q |})) /\
     error w2 = None /\
     modelRef w2 = modelRef w) /\
  error (handleRetry w) = None /\
  isModelLoading (handleRetry w) = true /\
  modelRef (handleRetry w) = modelRef w.
Proof.
  intros w. apply (loadModel_start w 0). simpl. lia.
Defined.

(** C6, refuted as stated: a load started while a model is loaded (here by
    the Retry button of the error screen shown after a rejected drop) does
    not clear the model reference. *)
Lemma loadModel_keeps_handle :
  runView boot [Settle 0 Resolved; Settle 0 Resolved;
                Settle 0 (ResolvedModel (Handle 1));
                FileDrop [txtFile]; RetryClick]
  = Some {| image := None; predictions := []; isAnalyzing := false;
            isModelLoading := true; error := None;
            modelRef := Some (Handle 1); retryCount := 0;
            tasks := [None; Some AwaitTfReady] |} /\
  modelRef (loadModel 0 {| image := None; predictions := []; isAnalyzing := false;
                           isModelLoading := false; error := None;
                           modelRef := Some (Handle 1); retryCount := 0;
                           tasks := [None] |}) <> None /\
  ~ (forall w i, modelRef (loadModel i w) = None).
Proof.
  split; [reflexivity|]. split; [done|].
  intros Hclaim.
  specialize (Hclaim {| image := None; predictions := []; isAnalyzing := false;
                        isModelLoading := false; error := None;
                        modelRef := Some (Handle 1); retryCount := 0;
                        tasks := [None] |} 0).
  done.
Qed.

(** ** Classification results *)




(** ** Overlapping submissions *)

(** Past the file read, a resolution writes neither the image nor the
    model reference, and its slot stays past the file read. *)
Lemma step_postRead (w w' : World) (a : nat) (s : Settlement) :
  postReadAt w a ->
  step w (Settle a s) = Some w' ->
  image w' = image w /\ modelRef w' = modelRef w /\
  exists o', tasks w' = <[a:=o']> (tasks w) /\ postRead o' = true.
Proof.
  intros (o & Ha & Hp) H. simpl in H. rewrite Ha in H.
  destruct o as [t|]; [|done].
  destruct t, s; simpl in H, Hp; try done; injection H as <-;
    unfold analyzeImage, analyzeImage_classify; repeat case_match;
    simpl; eauto.
Qed.

Lemma step_postReadAt (w w' : World) (i j : nat) (s : Settlement) :
  postReadAt w i -> postReadAt w j ->
  step w (Settle i s) = Some w' -> postReadAt w' j.
Proof.
  intros Hi Hj H.
  destruct (step_postRead _ _ _ _ Hi H) as (_ & _ & o' & Ht & Hp).
  destruct Hi as (oi & Hli & _). destruct Hj as (oj & Hlj & Hpj).
  unfold postReadAt. rewrite Ht. destruct (decide (i = j)) as [->|Hne].
  - exists o'. split; [|done]. apply list_lookup_insert_eq. by eapply lookup_lt_Some.
  - exists oj. by rewrite list_lookup_insert_ne.
Qed.

Lemma step_postRead_other (w w' : World) (i j : nat) (s : Settlement) :
  postReadAt w i -> i <> j ->
  step w (Settle i s) = Some w' -> tasks w' !! j = tasks w !! j.
Proof.
  intros Hi Hne H.
  destruct (step_postRead _ _ _ _ Hi H) as (_ & _ & o' & -> & _).
  by apply list_lookup_insert_ne.
Qed.

(** Two submissions past their file reads: whatever the order of their
    resolutions, the image stays. *)
Lemma run_postRead_image (a b : nat) (es : list Event) (w w' : World) :
  postReadAt w a -> postReadAt w b ->
  Forall (onSlots a b) es ->
  run w es = Some w' -> image w' = image w.
Proof.
  revert w. induction es as [|e es IH]; intros w Ha Hb Hes Hrun; simpl in Hrun.
  - by simplify_eq.
  - apply Forall_cons in Hes as [He Hes].
    destruct (step w e) as [w1|] eqn:Hstep; [|done].
    destruct e as [| | | |i s]; try done. simpl in He.
    assert (postReadAt w i) as Hi by (by destruct He as [->| ->]).
    destruct (step_postRead _ _ _ _ Hi Hstep) as (Him & _).
    rewrite <- Him. apply IH; try done; by eapply step_postReadAt.
Qed.

(** The resolutions of one submission that is past its file read. *)
Lemma run_postRead (a : nat) (ss : list Settlement) (w w' : World) :
  postReadAt w a ->
  run w (map (Settle a) ss) = Some w' ->
  modelRef w' = modelRef w /\
  forall j, a <> j -> tasks w' !! j = tasks w !! j.
Proof.
  revert w. induction ss as [|s ss IH]; intros w Ha Hrun; simpl in Hrun.
  - by simplify_eq.
  - change (match tasks w !! a with
            | Some (Some t) => resume a t s w
            | _ => None
            end) with (step w (Settle a s)) in Hrun.
    destruct (step w (Settle a s)) as [w1|] eqn:Hstep; [|done].
    destruct (step_postRead _ _ _ _ Ha Hstep) as (_ & Hm & _).
    destruct (IH w1) as [Hm' Hother]; [by eapply step_postReadAt | done |].
    split; [congruence|]. intros j Hne. rewrite Hother by done.
    by eapply step_postRead_other.
Qed.

Lemma run_settle (w : World) (i : nat) (t : Task) (s : Settlement) (ss : list Settlement) :
  tasks w !! i = Some (Some t) ->
  run w (map (Settle i) (s :: ss))
  = resume i t s w ≫= fun w1 => run w1 (map (Settle i) ss).
Proof.
  intros Hi. cbn [map run]. rewrite (step_settle _ _ _ _ Hi).
  by destruct (resume i t s w).
Qed.

(** Nothing can be delivered to a slot whose computation has returned. *)
Lemma run_finished (w w' : World) (i : nat) (ss : list Settlement) :
  tasks w !! i = Some None ->
  run w (map (Settle i) ss) = Some w' ->
  ss = [] /\ w' = w.
Proof.
  intros Hi Hrun. destruct ss as [|s ss].
  - by simplify_eq/=.
  - cbn [map run step] in Hrun. by rewrite Hi in Hrun.
Qed.

Lemma lookup_finish (i : nat) (w : World) :
  i < length (tasks w) -> tasks (finish i w) !! i = Some None.
Proof. intros Hi. simpl. by apply list_lookup_insert_eq. Qed.

(** The outcomes of a submission on its own. *)
Lemma outcome_decodeError (m : option MobileNet) (file : File) (url : string) :
  outcome m file [ResolvedDataURL url; Rejected]
  = Some (Some url, [], Some decodeErrorMessage).
Proof. vm_compute. reflexivity. Qed.

Lemma outcome_modelNotReady (file : File) (url : string) :
  outcome None file [ResolvedDataURL url; Resolved]
  = Some (Some url, [], Some modelNotReadyMessage).
Proof. vm_compute. reflexivity. Qed.

Lemma outcome_results (m : MobileNet) (file : File) (url : string) (ps : list Prediction) :
  outcome (Some m) file [ResolvedDataURL url; Resolved; Resolved; ResolvedPredictions ps]
  = Some (Some url, ps, None).
Proof. vm_compute. reflexivity. Qed.

Lemma outcome_inferenceError (m : MobileNet) (file : File) (url : string) :
  outcome (Some m) file [ResolvedDataURL url; Resolved; Resolved; Rejected]
  = Some (Some url, [], Some inferenceErrorMessage).
Proof. vm_compute. reflexivity. Qed.

(** A submission whose resolutions meet no other one ends in its own
    outcome, whatever state it started from. *)
Lemma pipeline_alone
    (w w' : World) (b : nat) (file : File) (url : string) (ss : list Settlement) :
  tasks w !! b = Some (Some (FileReading file)) ->
  run w (map (Settle b) (ResolvedDataURL url :: ss)) = Some w' ->
  slot w' b = None ->
  Some (observable w') = outcome (modelRef w) file (ResolvedDataURL url :: ss).
Proof.
  intros Hb Hrun Hdone. pose proof (lookup_lt_Some _ _ _ Hb) as Hlen.
  rewrite (run_settle _ _ _ _ _ Hb) in Hrun. cbn [resume mbind option_bind] in Hrun.
  (* reader.onload: the image is decoding *)
  assert (tasks (reader_onload b url w) !! b = Some (Some (ImageDecoding url))) as H1
    by by apply lookup_suspend.
  destruct ss as [|s1 ss].
  { cbn [map run] in Hrun. injection Hrun as <-.
    unfold slot in Hdone. by rewrite H1 in Hdone. }
  rewrite (run_settle _ _ _ _ _ H1) in Hrun.
  destruct s1; cbn [resume mbind option_bind] in Hrun; try discriminate Hrun.
  - (* img.onload calls analyzeImage *)
    unfold analyzeImage in Hrun.
    change (modelRef (reader_onload b url w)) with (modelRef w) in Hrun.
    destruct (modelRef w) as [m|] eqn:Hm.
    + set (w2 := suspend b (AwaitImageComplete url)
                   (setError None (setIsAnalyzing true (reader_onload b url w)))) in *.
      assert (tasks w2 !! b = Some (Some (AwaitImageComplete url))) as H2.
      { apply lookup_suspend. simpl. by rewrite length_insert. }
      destruct ss as [|s2 ss].
      { cbn [map run] in Hrun. injection Hrun as <-.
    unfold slot in Hdone. by rewrite H2 in Hdone. }
      rewrite (run_settle _ _ _ _ _ H2) in Hrun.
      destruct s2; cbn [resume mbind option_bind] in Hrun; try discriminate Hrun.
      unfold analyzeImage_classify in Hrun.
      change (modelRef w2) with (modelRef w) in Hrun. rewrite Hm in Hrun.
      set (w3 := suspend b (AwaitClassify m url 5) w2) in *.
      assert (tasks w3 !! b = Some (Some (AwaitClassify m url 5))) as H3.
      { apply lookup_suspend. subst w2. simpl. by rewrite !length_insert. }
      assert (b < length (tasks w3)) as Hlen3 by (by eapply lookup_lt_Some).
      destruct ss as [|s3 ss].
      { cbn [map run] in Hrun. injection Hrun as <-.
    unfold slot in Hdone. by rewrite H3 in Hdone. }
      rewrite (run_settle _ _ _ _ _ H3) in Hrun.
      destruct s3; cbn [resume mbind option_bind] in Hrun; try discriminate Hrun.
      * apply run_finished in Hrun as [-> ->]; [|by apply lookup_finish].
        by rewrite outcome_results.
      * apply run_finished in Hrun as [-> ->]; [|by apply lookup_finish].
        by rewrite outcome_inferenceError.
    + apply run_finished in Hrun as [-> ->];
        [|apply lookup_finish; simpl; by rewrite length_insert].
      by rewrite outcome_modelNotReady.
  - (* img.onerror *)
    apply run_finished in Hrun as [-> ->];
      [|apply lookup_finish; simpl; by rewrite length_insert].
    by rewrite outcome_decodeError.
Qed.

Lemma slotEvents_app (j : nat) (es1 es2 : list Event) :
  slotEvents j (es1 ++ es2) = slotEvents j es1 ++ slotEvents j es2.
Proof. unfold slotEvents. apply omap_app. Qed.

Lemma slotEvents_cons (i j : nat) (s : Settlement) (es : list Event) :
  slotEvents j (Settle i s :: es)
  = if decide (i = j) then s :: slotEvents j es else slotEvents j es.
Proof. unfold slotEvents. simpl. by destruct (decide (i = j)). Qed.

Lemma slotEvents_same (j : nat) (ss : list Settlement) :
  slotEvents j (map (Settle j) ss) = ss.
Proof.
  induction ss as [|s ss IH]; [done|].
  cbn [map]. rewrite slotEvents_cons, decide_True by done. by rewrite IH.
Qed.

Lemma slotEvents_other (i j : nat) (ss : list Settlement) :
  i <> j -> slotEvents j (map (Settle i) ss) = [].
Proof.
  intros Hne. induction ss as [|s ss IH]; [done|].
  cbn [map]. by rewrite slotEvents_cons, decide_False.
Qed.

(** One submission past its file read, the other still reading: once the
    read of the second completes, its data URL is the image for good. *)
Lemma run_read_image
    (a b : nat) (file : File) (url : string) (es : list Event) (w w' : World) :
  postReadAt w a ->
  tasks w !! b = Some (Some (FileReading file)) ->
  Forall (onSlots a b) es ->
  run w es = Some w' ->
  head (slotEvents b es) = Some (ResolvedDataURL url) ->
  image w' = Some url.
Proof.
  revert w. induction es as [|e es IH]; intros w Ha Hb Hes Hrun Hhead; [done|].
  apply Forall_cons in Hes as [He Hes]. simpl in Hrun.
  destruct (step w e) as [w1|] eqn:Hstep; [|done].
  destruct e as [| | | |i s]; try done. simpl in He.
  assert (a <> b) as Hab.
  { intros ->. destruct Ha as (o & Ho & Hp). by simplify_eq. }
  rewrite slotEvents_cons in Hhead.
  destruct (decide (i = b)) as [->|Hib].
  - simpl in Hhead. simplify_eq. simpl in Hstep. rewrite Hb in Hstep.
    simpl in Hstep. simplify_eq.
    pose proof (lookup_lt_Some _ _ _ Hb) as Hlen.
    assert (postReadAt (reader_onload b url w) a) as Ha'.
    { destruct Ha as (o & Ho & Hp). exists o. simpl.
      by rewrite list_lookup_insert_ne. }
    assert (postReadAt (reader_onload b url w) b) as Hb'.
    { exists (Some (ImageDecoding url)). simpl.
      by rewrite list_lookup_insert_eq. }
    by rewrite (run_postRead_image a b es _ w' Ha' Hb' Hes Hrun).
  - destruct He as [->|]; [|done].
    apply (IH w1); try done.
    + by eapply step_postReadAt.
    + by rewrite (step_postRead_other w w1 a b s).
Qed.

(** C2 (as the code has it). No resolution checks whether its submission
    is still the current one.  When B is submitted while A is decoding or
    in inference and B's file read succeeds, the image finally shown is
    B's in every interleaving of the resolutions; predictions and error
    are those of whichever resolution came last, so the final state
    reflects only B's outcome when the resolutions of A arrive before
    those of B. *)
Theorem supersession_last_writer
    (w : World) (a : nat) (file : File) (es : list Event) (w' : World) (url : string) :
  isInFlight (slot w a) = true ->
  Forall (onSlots a (length (tasks w))) es ->
  run (readFile file w) es = Some w' ->
  head (slotEvents (length (tasks w)) es) = Some (ResolvedDataURL url) ->
  image w' = Some url /\
  (forall ssA ssB,
     es = map (Settle a) ssA ++ map (Settle (length (tasks w))) ssB ->
     slot w' (length (tasks w)) = None ->
     Some (observable w') = outcome (modelRef w) file ssB).
Proof.
  intros Hinfl Hes Hrun Hhead.
  unfold slot in Hinfl.
  destruct (tasks w !! a) as [o|] eqn:Ha; [|done]. simpl in Hinfl.
  pose proof (lookup_lt_Some _ _ _ Ha) as Hlt.
  assert (postReadAt (readFile file w) a) as Hpa.
  { exists o. rewrite tasks_readFile, lookup_app_l by done.
    split; [done|]. by destruct o. }
  assert (tasks (readFile file w) !! length (tasks w)
          = Some (Some (FileReading file))) as Hb.
  { rewrite tasks_readFile. by apply list_lookup_middle. }
  split; [by eapply run_read_image|].
  intros ssA ssB -> Hdone.
  rewrite slotEvents_app, slotEvents_same, slotEvents_other in Hhead by lia.
  destruct ssB as [|s ssB]; [done|]. simpl in Hhead. injection Hhead as ->.
  rewrite run_app in Hrun.
  destruct (run (readFile file w) (map (Settle a) ssA)) as [w1|] eqn:HrunA; [|done].
  cbn [mbind option_bind] in Hrun.
  destruct (run_postRead a ssA _ w1 Hpa HrunA) as [Hm Hother].
  rewrite <- Hother in Hb by lia.
  change (modelRef w) with (modelRef (readFile file w)). rewrite <- Hm.
  exact (pipeline_alone w1 w' (length (tasks w)) file url ssB Hb Hrun Hdone).
Qed.

Lemma supersession_last_writer_witness :
  isInFlight (slot inferringA 1) = true /\
  run (readFile jpgFile inferringA)
      [Settle 1 (ResolvedPredictions predsA);
       Settle 2 (ResolvedDataURL urlB); Settle 2 Resolved; Settle 2 Resolved;
       Settle 2 (ResolvedPredictions predsB)]
  = Some shownB /\
  image shownB = Some urlB /\
  Some (observable shownB)
  = outcome (modelRef inferringA) jpgFile
      [ResolvedDataURL urlB; Resolved; Resolved; ResolvedPredictions predsB].
Proof.
  split; [reflexivity|]. split; [reflexivity|].
  assert (Forall (onSlots 1 (length (tasks inferringA)))
            [Settle 1 (ResolvedPredictions predsA);
             Settle 2 (ResolvedDataURL urlB); Settle 2 Resolved; Settle 2 Resolved;
             Settle 2 (ResolvedPredictions predsB)]) as Hes.
  { repeat (apply List.Forall_cons; [simpl; lia|]). apply List.Forall_nil. }
  destruct (supersession_last_writer inferringA 1 jpgFile
              [Settle 1 (ResolvedPredictions predsA);
               Settle 2 (ResolvedDataURL urlB); Settle 2 Resolved; Settle 2 Resolved;
               Settle 2 (ResolvedPredictions predsB)]
              shownB urlB eq_refl Hes eq_refl eq_refl) as [Himage Hobs].
  split; [exact Himage|].
  exact (Hobs [ResolvedPredictions predsA]
              [ResolvedDataURL urlB; Resolved; Resolved; ResolvedPredictions predsB]
              eq_refl eq_refl).
Defined.

(** C2, refuted as stated: B is submitted while the inference of A is in
    flight; B's pipeline completes with [predsB]; the inference of A then
    resolves and its predictions replace those of B under B's image. *)
Lemma late_inference_overwrites :
  runView boot [Settle 0 Resolved; Settle 0 Resolved;
                Settle 0 (ResolvedModel (Handle 1));
                FileChange [pngFile]; Settle 1 (ResolvedDataURL urlA);
                Settle 1 Resolved; Settle 1 Resolved]
  = Some inferringA /\
  offered inferringA (FileChange [jpgFile]) = true /\
  step inferringA (FileChange [jpgFile]) = Some (readFile jpgFile inferringA) /\
  run (readFile jpgFile inferringA)
      [Settle 2 (ResolvedDataURL urlB); Settle 2 Resolved; Settle 2 Resolved;
       Settle 2 (ResolvedPredictions predsB);
       Settle 1 (ResolvedPredictions predsA)]
  = Some overwrittenByA /\
  observable overwrittenByA = (Some urlB, predsA, None) /\
  outcome (Some (Handle 1)) jpgFile
    [ResolvedDataURL urlB; Resolved; Resolved; ResolvedPredictions predsB]
  = Some (Some urlB, predsB, None) /\
  predsA <> predsB /\
  ~ (forall w a file es w',
       isInFlight (slot w a) = true ->
       Forall (onSlots a (length (tasks w))) es ->
       run (readFile file w) es = Some w' ->
       slot w' a = None ->
       slot w' (length (tasks w)) = None ->
       Some (observable w')
       = outcome (modelRef w) file (slotEvents (length (tasks w)) es)).
Proof.
  split; [reflexivity|]. split; [reflexivity|]. split; [reflexivity|].
  split; [reflexivity|]. split; [reflexivity|]. split; [reflexivity|].
  split; [done|].
  intros Hclaim.
  specialize (Hclaim inferringA 1 jpgFile
    [Settle 2 (ResolvedDataURL urlB); Settle 2 Resolved; Settle 2 Resolved;
     Settle 2 (ResolvedPredictions predsB);
     Settle 1 (ResolvedPredictions predsA)] overwrittenByA eq_refl).
  assert (Forall (onSlots 1 (length (tasks inferringA)))
            [Settle 2 (ResolvedDataURL urlB); Settle 2 Resolved; Settle 2 Resolved;
             Settle 2 (ResolvedPredictions predsB);
             Settle 1 (ResolvedPredictions predsA)]) as Hes.
  { repeat (apply List.Forall_cons; [simpl; lia|]). apply List.Forall_nil. }
  specialize (Hclaim Hes eq_refl eq_refl eq_refl).
  vm_compute in Hclaim. done.
Qed.

(** * Further properties *)

(** ** The two ingestion paths *)

(** X1. For a selection that holds at least one file the picker handler
    and the drop handler do the same thing, and only the first file
    counts.  A file whose type starts with "image/" starts one file read
    and leaves image, predictions and error message as they are. *)
Theorem handlers_agree (file : File) (rest : list File) (w : World) :
  handleImageUpload (file :: rest) w = handleDrop (file :: rest) w /\
  handleDrop (file :: rest) w = handleDrop [file] w /\
  (String.prefix "image/" (type file) = true ->
     handleDrop (file :: rest) w = readFile file w /\
     tasks (readFile file w) = tasks w ++ [Some (FileReading file)] /\
     observable (readFile file w) = observable w /\
     isAnalyzing (readFile file w) = isAnalyzing w).
Proof.
  unfold handleImageUpload, handleDrop. simpl.
  destruct (String.prefix "image/" (type file)) eqn:Hp; simpl.
  - repeat split. apply tasks_readFile.
  - repeat split; discriminate.
Qed.

(** ** Clearing and the analysing flag *)

(** X2. The clear button cancels nothing: when it is clicked while an
    inference is pending, the inference still delivers, and the main
    screen then renders its predictions as results under the empty drop
    zone, with no image set. *)
Theorem clear_keeps_inference
    (w : World) (i : nat) (m : MobileNet) (img : string) (k : nat)
    (ps : list Prediction) :
  offered w ClearClick = true ->
  tasks w !! i = Some (Some (AwaitClassify m img k)) ->
  tasks (clearImage w) = tasks w /\
  exists w',
    runView w [ClearClick; Settle i (ResolvedPredictions ps)] = Some w' /\
    image w' = None /\
    predictions w' = ps /\
    error w' = None /\
    screen w' = MainScreen (mainView w') /\
    preview (mainView w') = None /\
    clearButton (mainView w') = false /\
    errorBanner (mainView w') = None /\
    results (mainView w') = ps.
Proof.
  intros Hoff Hi. split; [done|].
  exists (analyzeImage_done i ps (clearImage w)).
  cbn [runView]. rewrite Hoff. cbn [step offered].
  change (tasks (clearImage w)) with (tasks w). rewrite Hi. cbn [resume].
  simpl in Hoff. apply andb_true_iff in Hoff as [Hmain _].
  apply negb_true_iff, orb_false_iff in Hmain as [Hload _].
  repeat split. unfold screen. simpl. by rewrite Hload.
Qed.

Lemma clear_keeps_inference_witness :
  tasks (clearImage inferringA) = tasks inferringA /\
  exists w',
    runView inferringA [ClearClick; Settle 1 (ResolvedPredictions predsA)] = Some w' /\
    image w' = None /\
    predictions w' = predsA /\
    error w' = None /\
    screen w' = MainScreen (mainView w') /\
    preview (mainView w') = None /\
    clearButton (mainView w') = false /\
    errorBanner (mainView w') = None /\
    results (mainView w') = predsA.
Proof.
  apply (clear_keeps_inference inferringA 1 (Handle 1) urlA 5 predsA); reflexivity.
Defined.

(** X3. The analysing flag is a boolean, not a count: when two inferences
    are pending, the first to settle (fulfilled or rejected) turns the
    flag off while the other is still pending. *)
Theorem analyzing_flag_cleared_by_first
    (w : World) (i j : nat) (mi mj : MobileNet) (imgi imgj : string) (ki kj : nat)
    (ps : list Prediction) :
  i <> j ->
  tasks w !! i = Some (Some (AwaitClassify mi imgi ki)) ->
  tasks w !! j = Some (Some (AwaitClassify mj imgj kj)) ->
  (exists w',
     step w (Settle i (ResolvedPredictions ps)) = Some w' /\
     isAnalyzing w' = false /\
     tasks w' !! j = Some (Some (AwaitClassify mj imgj kj))) /\
  (exists w',
     step w (Settle i Rejected) = Some w' /\
     isAnalyzing w' = false /\
     tasks w' !! j = Some (Some (AwaitClassify mj imgj kj))).
Proof.
  intros Hne Hi Hj. split.
  - exists (analyzeImage_done i ps w). rewrite (step_settle _ _ _ _ Hi).
    repeat split. simpl. by rewrite list_lookup_insert_ne.
  - exists (analyzeImage_catch i w). rewrite (step_settle _ _ _ _ Hi).
    repeat split. simpl. by rewrite list_lookup_insert_ne.
Qed.

Lemma analyzing_flag_cleared_by_first_witness :
  runView inferringA [FileChange [jpgFile]; Settle 2 (ResolvedDataURL urlB);
                      Settle 2 Resolved; Settle 2 Resolved]
  = Some inferringAB /\
  (exists w',
     step inferringAB (Settle 1 (ResolvedPredictions predsA)) = Some w' /\
     isAnalyzing w' = false /\
     tasks w' !! 2 = Some (Some (AwaitClassify (Handle 1) urlB 5))) /\
  (exists w',
     step inferringAB (Settle 1 Rejected) = Some w' /\
     isAnalyzing w' = false /\
     tasks w' !! 2 = Some (Some (AwaitClassify (Handle 1) urlB 5))).
Proof.
  split; [vm_compute; reflexivity|].
  apply (analyzing_flag_cleared_by_first inferringAB 1 2 (Handle 1) (Handle 1)
           urlA urlB 5 5 predsA); [lia | reflexivity | reflexivity].
Defined.

(** ** Messages and screens *)

(** X4. The error banner of the main screen is never rendered, because a
    message keeps the main screen from rendering at all: whenever a
    handler sets a message, the next render is the spinner or the error
    screen, never the main screen. *)
Theorem message_hides_main_screen (w : World) :
  (forall v, screen w = MainScreen v -> errorBanner v = None) /\
  (forall e w',
     step w e = Some w' -> error w' <> error w -> error w' <> None ->
     truthy (error w') = true /\ forall v, screen w' <> MainScreen v).
Proof.
  split.
  - intros v. unfold screen, mainView.
    destruct (isModelLoading w), (truthy (error w)) eqn:Ht; simpl; try done.
    by intros [= <-].
  - intros e w' H Hchanged Hset.
    assert (truthy (error w') = true) as Ht.
    { step_cases H;
        unfold handleImageUpload, handleDrop, loadModel_catch, analyzeImage,
          analyzeImage_classify in *;
        repeat case_match; simpl in *; done. }
    split; [done|]. intros v. unfold screen. rewrite Ht, orb_true_r.
    by destruct (isModelLoading w').
Qed.

(** X5. On the error screen the only user action is the Retry button, and
    it starts a model load whether or not a model is already loaded: the
    message is cleared, the spinner replaces the screen, one more load is
    in flight, and image, predictions and model reference are kept. *)
Theorem error_screen_only_retry (w : World) (msg : string) :
  isModelLoading w = false ->
  error w = Some msg ->
  truthy (error w) = true ->
  screen w = ErrorScreen msg /\
  (forall e, offered w e = true -> e = RetryClick \/ exists i s, e = Settle i s) /\
  offered w RetryClick = true /\
  step w RetryClick = Some (handleRetry w) /\
  screen (handleRetry w) = LoadingScreen /\
  error (handleRetry w) = None /\
  loadsInFlight (handleRetry w) = loadsInFlight w + 1 /\
  modelRef (handleRetry w) = modelRef w /\
  image (handleRetry w) = image w /\
  predictions (handleRetry w) = predictions w.
Proof.
  intros Hload Herr Ht. repeat split.
  - unfold screen. by rewrite Hload, Ht, Herr.
  - intros e. destruct e; simpl; rewrite ?Hload, ?Ht; simpl; eauto; done.
  - simpl. by rewrite Hload, Ht.
  - unfold loadsInFlight. rewrite tasks_handleRetry, countb_app. done.
Qed.

Lemma error_screen_only_retry_witness :
  let w := {| image := Some urlA; predictions := predsA; isAnalyzing := false;
              isModelLoading := false; error := Some unsupportedTypeMessage;
              modelRef := Some (Handle 1); retryCount := 0; tasks := [None; None] |} in
  screen w = ErrorScreen unsupportedTypeMessage /\
  (forall e, offered w e = true -> e = RetryClick \/ exists i s, e = Settle i s) /\
  offered w RetryClick = true /\
  step w RetryClick = Some (handleRetry w) /\
  screen (handleRetry w) = LoadingScreen /\
  error (handleRetry w) = None /\
  loadsInFlight (handleRetry w) = loadsInFlight w + 1 /\
  modelRef (handleRetry w) = modelRef w /\
  image (handleRetry w) = image w /\
  predictions (handleRetry w) = predictions w.
Proof.
  intros w. apply (error_screen_only_retry w unsupportedTypeMessage); reflexivity.
Defined.

(** ** Recovery of the model load *)

Lemma run_loaded (w : World) (i : nat) (m : MobileNet) :
  tasks w !! i = Some (Some AwaitTfReady) ->
  exists w',
    run w [Settle i Resolved; Settle i Resolved; Settle i (ResolvedModel m)] = Some w' /\
    modelRef w' = Some m /\ retryCount w' = 0 /\ isModelLoading w' = false /\
    error w' = error w /\ tasks w' = <[i := None]> (tasks w).
Proof.
  intros Hi. pose proof (lookup_lt_Some _ _ _ Hi) as Hlen.
  exists (loadModel_loaded i m (loadModel_load i (loadModel_setBackend i w))).
  cbn [run]. rewrite (step_settle _ _ _ _ Hi). cbn [resume].
  assert (tasks (loadModel_setBackend i w) !! i
          = Some (Some (AwaitSetBackend "webgl"))) as H1 by by apply lookup_suspend.
  rewrite (step_settle _ _ _ _ H1). cbn [resume].
  assert (tasks (loadModel_load i (loadModel_setBackend i w)) !! i
          = Some (Some (AwaitMobilenetLoad loadConfig))) as H2.
  { apply lookup_suspend. simpl. by rewrite length_insert. }
  rewrite (step_settle _ _ _ _ H2). cbn [resume].
  repeat split. simpl. by rewrite !list_insert_insert_eq.
Qed.

(** X6. A load that fails up to three times and then succeeds ends as if
    nothing had failed: the model is stored, the counter is 0, the
    loading flag is off, no message is left and nothing of the chain is
    pending. *)
Theorem load_recovers (w0 : World) (i : nat) (ks : list nat) (m : MobileNet) :
  tasks w0 !! i = Some (Some AwaitTfReady) ->
  error w0 = None ->
  retryCount w0 + length ks <= 3 ->
  Forall (fun k => k <= 2) ks ->
  exists w,
    run w0 (retriedLoad i ks m) = Some w /\
    modelRef w = Some m /\
    retryCount w = 0 /\
    isModelLoading w = false /\
    error w = None /\
    tasks w = <[i := None]> (tasks w0) /\
    screen w = MainScreen (mainView w).
Proof.
  revert w0. induction ks as [|k ks IH]; intros w0 Hi Herr Hrc Hks.
  - destruct (run_loaded w0 i m Hi) as (w & Hrun & Hm & Hr & Hl & He & Ht).
    exists w. unfold retriedLoad. cbn [map concat app]. rewrite Hrun.
    repeat split; try done; try congruence.
    unfold screen. by rewrite Hl, He, Herr.
  - apply Forall_cons in Hks as [Hk Hks]. simpl in Hrc.
    destruct (failAndRetry_spec w0 i Hi) as (Ht & Hr & _); [lia|].
    destruct (IH (failAndRetry i w0)) as (w & Hrun & Hrest); try done.
    + by rewrite Ht.
    + lia.
    + exists w. split; [|by rewrite <- Ht].
      rewrite <- Hrun. unfold retriedLoad. cbn [map concat].
      rewrite <- !app_assoc. cbn [app].
      apply run_failAndRetry; [done | done | lia].
Qed.

Lemma load_recovers_witness :
  exists w,
    run boot (retriedLoad 0 [2; 0; 1] (Handle 1)) = Some w /\
    modelRef w = Some (Handle 1) /\
    retryCount w = 0 /\
    isModelLoading w = false /\
    error w = None /\
    tasks w = <[0 := None]> (tasks boot) /\
    screen w = MainScreen (mainView w).
Proof.
  apply (load_recovers boot 0 [2; 0; 1] (Handle 1));
    [reflexivity | reflexivity | simpl; lia | ].
  repeat (apply List.Forall_cons; [lia|]). apply List.Forall_nil.
Defined.

(** ** The outcomes of one submission *)

(** X7. A submission whose file read succeeded and whose resolutions meet
    no other event ends in exactly one of four ways, whatever was shown
    before: decode error, model not ready, inference error, or results.
    In each the image is the submission's data URL; the predictions are
    empty unless the classification succeeded, and the message is null
    only then. *)
Theorem submission_outcomes
    (w w' : World) (b : nat) (file : File) (url : string) (ss : list Settlement) :
  tasks w !! b = Some (Some (FileReading file)) ->
  run w (map (Settle b) (ResolvedDataURL url :: ss)) = Some w' ->
  slot w' b = None ->
  image w' = Some url /\
  ((ss = [Rejected] /\
    predictions w' = [] /\ error w' = Some decodeErrorMessage) \/
   (modelRef w = None /\ ss = [Resolved] /\
    predictions w' = [] /\ error w' = Some modelNotReadyMessage) \/
   (is_Some (modelRef w) /\ ss = [Resolved; Resolved; Rejected] /\
    predictions w' = [] /\ error w' = Some inferenceErrorMessage /\
    isAnalyzing w' = false) \/
   (exists ps, is_Some (modelRef w) /\
    ss = [Resolved; Resolved; ResolvedPredictions ps] /\
    predictions w' = ps /\ error w' = None /\ isAnalyzing w' = false)).
Proof.
  intros Hb Hrun Hdone. pose proof (lookup_lt_Some _ _ _ Hb) as Hlen.
  rewrite (run_settle _ _ _ _ _ Hb) in Hrun. cbn [resume mbind option_bind] in Hrun.
  assert (tasks (reader_onload b url w) !! b = Some (Some (ImageDecoding url))) as H1
    by by apply lookup_suspend.
  destruct ss as [|s1 ss].
  { cbn [map run] in Hrun. injection Hrun as <-.
    unfold slot in Hdone. by rewrite H1 in Hdone. }
  rewrite (run_settle _ _ _ _ _ H1) in Hrun.
  destruct s1; cbn [resume mbind option_bind] in Hrun; try discriminate Hrun.
  - unfold analyzeImage in Hrun.
    change (modelRef (reader_onload b url w)) with (modelRef w) in Hrun.
    destruct (modelRef w) as [m|] eqn:Hm.
    + set (w2 := suspend b (AwaitImageComplete url)
                   (setError None (setIsAnalyzing true (reader_onload b url w)))) in *.
      assert (tasks w2 !! b = Some (Some (AwaitImageComplete url))) as H2.
      { apply lookup_suspend. simpl. by rewrite length_insert. }
      destruct ss as [|s2 ss].
      { cbn [map run] in Hrun. injection Hrun as <-.
        unfold slot in Hdone. by rewrite H2 in Hdone. }
      rewrite (run_settle _ _ _ _ _ H2) in Hrun.
      destruct s2; cbn [resume mbind option_bind] in Hrun; try discriminate Hrun.
      unfold analyzeImage_classify in Hrun.
      change (modelRef w2) with (modelRef w) in Hrun. rewrite Hm in Hrun.
      set (w3 := suspend b (AwaitClassify m url 5) w2) in *.
      assert (tasks w3 !! b = Some (Some (AwaitClassify m url 5))) as H3.
      { apply lookup_suspend. subst w2. simpl. by rewrite !length_insert. }
      assert (b < length (tasks w3)) as Hlen3 by (by eapply lookup_lt_Some).
      destruct ss as [|s3 ss].
      { cbn [map run] in Hrun. injection Hrun as <-.
        unfold slot in Hdone. by rewrite H3 in Hdone. }
      rewrite (run_settle _ _ _ _ _ H3) in Hrun.
      destruct s3; cbn [resume mbind option_bind] in Hrun; try discriminate Hrun.
      * apply run_finished in Hrun as [-> ->]; [|by apply lookup_finish].
        split; [done|]. right. right. right. exists ps. by repeat split.
      * apply run_finished in Hrun as [-> ->]; [|by apply lookup_finish].
        split; [done|]. right. right. left. by repeat split.
    + apply run_finished in Hrun as [-> ->];
        [|apply lookup_finish; simpl; by rewrite length_insert].
      split; [done|]. right. left. by repeat split.
  - apply run_finished in Hrun as [-> ->];
      [|apply lookup_finish; simpl; by rewrite length_insert].
    split; [done|]. left. by repeat split.
Qed.

Lemma submission_outcomes_witness :
  let w := {| image := Some urlA; predictions := predsA; isAnalyzing := false;
              isModelLoading := false; error := None; modelRef := Some (Handle 1);
              retryCount := 0; tasks := [None; None; Some (FileReading jpgFile)] |} in
  let ss := [Resolved; Resolved; Rejected] in
  let w' := {| image := Some urlB; predictions := []; isAnalyzing := false;
               isModelLoading := false; error := Some inferenceErrorMessage;
               modelRef := Some (Handle 1); retryCount := 0;
               tasks := [None; None; None] |} in
  image w' = Some urlB /\
  ((ss = [Rejected] /\
    predictions w' = [] /\ error w' = Some decodeErrorMessage) \/
   (modelRef w = None /\ ss = [Resolved] /\
    predictions w' = [] /\ error w' = Some modelNotReadyMessage) \/
   (is_Some (modelRef w) /\ ss = [Resolved; Resolved; Rejected] /\
    predictions w' = [] /\ error w' = Some inferenceErrorMessage /\
    isAnalyzing w' = false) \/
   (exists ps, is_Some (modelRef w) /\
    ss = [Resolved; Resolved; ResolvedPredictions ps] /\
    predictions w' = ps /\ error w' = None /\ isAnalyzing w' = false)).
Proof.
  intros w ss w'.
  apply (submission_outcomes w w' 2 jpgFile urlB ss); reflexivity.
Defined.

(** ** What the user never sees *)

Ltac not_retry_message H :=
  unfold retryMessage in H; simpl in H; discriminate H.

Lemma step_retryInv (w w' : World) (e : Event) :
  offered w e = true -> chainInv w -> retryInv w ->
  step w e = Some w' -> retryInv w'.
Proof.
  intros Hoff [Hle Hidle] Hinv H n Hn. unfold loadChains, loadsInFlight in *.
  pose proof (countb_isLoad_le (tasks w)) as Hll.
  destruct e as [|files|files| |i s]; simpl in H, Hoff.
  - injection H as <-. done.
  - injection H as <-. unfold handleImageUpload in *.
    repeat case_match; simpl in Hn; try (by not_retry_message Hn);
      destruct (Hinv n Hn) as [Hl Hzero];
      by rewrite Hl in Hoff.
  - injection H as <-. unfold handleDrop in *.
    repeat case_match; simpl in Hn; try (by not_retry_message Hn);
      destruct (Hinv n Hn) as [Hl Hzero];
      by rewrite Hl in Hoff.
  - injection H as <-. done.
  - destruct (tasks w !! i) as [[t|]|] eqn:Ht; [|done|done].
    assert (forall o, countb isLoad (<[i:=o]> (tasks w))
                        + Nat.b2n (isLoad (Some t))
                      = countb isLoad (tasks w) + Nat.b2n (isLoad o)) as Hc.
    { intros o. by apply countb_insert. }
    pose proof (Hc None) as Hnone. simpl in Hnone.
    destruct t, s; simpl in H; try done; injection H as <-;
      unfold loadModel_catch, analyzeImage, analyzeImage_classify in *;
      repeat case_match; simpl in Hn |- *;
      try (by not_retry_message Hn);
      try (destruct (Hinv n Hn) as [Hl Hzero]; unfold loadsInFlight in Hzero);
      match goal with
      | |- context [countb isLoad (<[i:=?o]> (tasks w))] =>
          specialize (Hc o); simpl in Hc
      end;
      simpl in *;
      first
        [ lia
        | split;
          [ first [ done
                  | destruct (isModelLoading w) eqn:Hl';
                    [done | specialize (Hidle eq_refl); lia] ]
          | lia ] ].
Qed.

Lemma step_chain_retryInv (w w' : World) (e : Event) :
  offered w e = true -> chainInv w /\ retryInv w ->
  step w e = Some w' -> chainInv w' /\ retryInv w'.
Proof.
  intros Hoff [Hc Hr] H. split.
  - by eapply step_chainInv.
  - by eapply step_retryInv.
Qed.

(** X8. In executions driven through the rendered view the message
    "Loading failed. Retrying... (Attempt n/3)" is never displayed:
    whenever it is the current message the loading flag is on, so the
    render is the spinner, and the chain waits on its retry timer. *)
Theorem retry_message_never_shown (es : list Event) (w : World) (n : nat) :
  runView boot es = Some w ->
  error w = Some (retryMessage n) ->
  screen w = LoadingScreen /\
  loadsInFlight w = 0 /\
  offered w RetryClick = false.
Proof.
  intros Hrun Hn.
  destruct (runView_invariant (fun w => chainInv w /\ retryInv w)
              step_chain_retryInv es boot w) as [_ Hinv]; [|done|].
  { split; [split; [by vm_compute | done] | by intros k Hk]. }
  destruct (Hinv n Hn) as [Hl H0].
  unfold screen. simpl. rewrite Hl. done.
Qed.

Lemma retry_message_never_shown_witness :
  let w := {| image := None; predictions := []; isAnalyzing := false;
              isModelLoading := true; error := Some (retryMessage 2);
              modelRef := None; retryCount := 2;
              tasks := [Some (RetryTimer 2000)] |} in
  screen w = LoadingScreen /\
  loadsInFlight w = 0 /\
  offered w RetryClick = false.
Proof.
  intros w.
  apply (retry_message_never_shown
           [Settle 0 Rejected; Settle 0 Resolved; Settle 0 Resolved; Settle 0 Rejected]
           w 2); reflexivity.
Defined.

Lemma offered_main (w : World) :
  negb (isModelLoading w || truthy (error w)) = true ->
  isModelLoading w = true \/ truthy (error w) = true -> False.
Proof. intros Hoff [H|H]; rewrite H in Hoff; by rewrite ?orb_true_r in Hoff. Qed.

Lemma step_viewInv (w w' : World) (e : Event) :
  offered w e = true -> viewInv w -> step w e = Some w' -> viewInv w'.
Proof.
  intros Hoff [Hnone Hmsg] H.
  assert (modelRef w' = None -> modelRef w = None) as Hback.
  { intros Hn'. destruct (modelRef w) eqn:Hm; [|done].
    destruct (step_modelRef_Some _ _ _ H) as [m' Hm']; [by eauto|congruence]. }
  destruct e as [|files|files| |i s]; simpl in H, Hoff.
  - (* Retry *)
    injection H as <-. split; [|done]. intros Hn'.
    destruct (Hnone Hn') as [_ Hcnt]. split; [by left|].
    rewrite tasks_handleRetry, countb_app, Hcnt. done.
  - (* picker: offered on the main screen only *)
    injection H as <-. split.
    + intros Hn'. destruct (Hnone (Hback Hn')) as [Hflag _].
      by destruct (offered_main w Hoff Hflag).
    + unfold handleImageUpload. repeat case_match; simpl; done.
  - injection H as <-. split.
    + intros Hn'. destruct (Hnone (Hback Hn')) as [Hflag _].
      by destruct (offered_main w Hoff Hflag).
    + unfold handleDrop. repeat case_match; simpl; done.
  - injection H as <-. split; [|done]. intros Hn'.
    destruct (Hnone (Hback Hn')) as [Hflag _].
    apply andb_true_iff in Hoff as [Hoff _].
    by destruct (offered_main w Hoff Hflag).
  - destruct (tasks w !! i) as [[t|]|] eqn:Ht; [|done|done].
    assert (forall o, countb isPipeline (<[i:=o]> (tasks w))
                        + Nat.b2n (isPipeline (Some t))
                      = countb isPipeline (tasks w) + Nat.b2n (isPipeline o)) as Hc.
    { intros o. by apply countb_insert. }
    pose proof (Hc None) as Hge. simpl in Hge.
    split.
    + intros Hn'. destruct (Hnone (Hback Hn')) as [Hflag Hcnt].
      destruct t, s; simpl in H; try done; injection H as <-;
        unfold loadModel_catch, analyzeImage, analyzeImage_classify in *;
        repeat case_match; simpl in Hn' |- *; try done; simpl in Hge; try lia;
        match goal with
        | |- context [countb isPipeline (<[i:=?o]> (tasks w))] =>
            specialize (Hc o); simpl in Hc
        end;
        (split; [|lia]); first [done | by left | by right].
    + destruct t, s; simpl in H; try done; injection H as <-;
        unfold loadModel_catch, analyzeImage, analyzeImage_classify in *;
        repeat case_match; simpl; try done.
      (* the guard of analyzeImage: no image is pending without a model *)
      destruct (Hnone eq_refl) as [_ Hcnt]. simpl in Hge. lia.
Qed.

(** X9. In executions driven through the rendered view the main screen is
    rendered only once a model is loaded, so every image is submitted
    with a model present: the decode-complete callback always passes the
    guard of [analyzeImage] and starts the analysis, and the message
    "Model not loaded yet. Please try again in a moment." is never set. *)
Theorem main_screen_has_model (es : list Event) (w : World) :
  runView boot es = Some w ->
  (forall v, screen w = MainScreen v -> is_Some (modelRef w)) /\
  (forall files, offered w (FileChange files) = true -> is_Some (modelRef w)) /\
  (forall files, offered w (FileDrop files) = true -> is_Some (modelRef w)) /\
  (forall i img,
     tasks w !! i = Some (Some (ImageDecoding img)) ->
     is_Some (modelRef w) /\
     step w (Settle i Resolved)
     = Some (suspend i (AwaitImageComplete img)
               (setError None (setIsAnalyzing true w)))) /\
  error w <> Some modelNotReadyMessage.
Proof.
  intros Hrun.
  destruct (runView_invariant viewInv step_viewInv es boot w) as [Hnone Hmsg];
    [|done|].
  { split; [|done]. intros _. split; [by left | by vm_compute]. }
  assert (negb (isModelLoading w || truthy (error w)) = true ->
          is_Some (modelRef w)) as Hmain.
  { intros Hoff. destruct (modelRef w) eqn:Hm; [by eauto|].
    destruct (Hnone eq_refl) as [Hflag _]. by destruct (offered_main w Hoff Hflag). }
  split; [|split; [|split; [|split]]].
  - intros v Hscreen. apply Hmain. unfold screen in Hscreen.
    destruct (isModelLoading w || truthy (error w)); [|done].
    by destruct (isModelLoading w).
  - intros files. apply Hmain.
  - intros files. apply Hmain.
  - intros i img Hi.
    assert (is_Some (modelRef w)) as [m Hm].
    { destruct (modelRef w) eqn:Hm; [by eauto|].
      destruct (Hnone eq_refl) as [_ Hcnt].
      pose proof (countb_insert isPipeline (tasks w) i _ None Hi) as Hc.
      simpl in Hc. lia. }
    split; [by eauto|].
    rewrite (step_settle _ _ _ _ Hi). cbn [resume]. unfold analyzeImage.
    by rewrite Hm.
  - done.
Qed.

Lemma main_screen_has_model_witness :
  let es := [Settle 0 Rejected; Settle 0 Resolved; Settle 0 Resolved;
             Settle 0 Resolved; Settle 0 (ResolvedModel (Handle 1));
             FileDrop [pngFile]; Settle 1 (ResolvedDataURL urlA)] in
  let w := {| image := Some urlA; predictions := []; isAnalyzing := false;
              isModelLoading := false; error := None; modelRef := Some (Handle 1);
              retryCount := 0; tasks := [None; Some (ImageDecoding urlA)] |} in
  (forall v, screen w = MainScreen v -> is_Some (modelRef w)) /\
  (forall files, offered w (FileChange files) = true -> is_Some (modelRef w)) /\
  (forall files, offered w (FileDrop files) = true -> is_Some (modelRef w)) /\
  (forall i img,
     tasks w !! i = Some (Some (ImageDecoding img)) ->
     is_Some (modelRef w) /\
     step w (Settle i Resolved)
     = Some (suspend i (AwaitImageComplete img)
               (setError None (setIsAnalyzing true w)))) /\
  error w <> Some modelNotReadyMessage.
Proof.
  intros es w. apply (main_screen_has_model es w). reflexivity.
Defined.
